(** * A shallow embedding of the lrytas scraper and dataset builder

    [src/lrytas/scraper.py]: the [Scraper] class (recovery of the dataset
    file, the crawl loop, URL deduplication, sleeps, appends).
    [src/lrytas/dataset_builder.py]: [DatasetBuilder.build_dataset],
    [_read_raw_dataset] and [_ignore_duplicates].

    The browser, the HTTP session and the HTML selectors are external
    collaborators; they appear as section variables (oracles).  Sleeps,
    page loads and appends are recorded in an event log (newest first),
    so that the order of effects can be stated. *)

From Stdlib Require Import String Ascii List Arith ZArith Lia.
From stdpp Require Import base gmap sets list strings.

Open Scope string_scope.

(** ** Data model *)

(** A sample, as the dict written by [_get_article_data]. *)
Record sample := mk_sample {
  url : string;
  title : string;
  summary : string;
  text : string
}.

(** Python's [str.strip()] with no argument: it removes, at both ends,
    the characters for which [str.isspace] holds.  A Python [str] is
    represented by its UTF-8 encoding (the encoding of the JSON lines
    file), so each of these characters is a sequence of one to three
    bytes.  [utf8_spaces] lists the encodings of all 29 of them (Python
    3.11): U+0009..U+000D, U+001C..U+0020, U+0085, U+00A0, U+1680,
    U+2000..U+200A, U+2028, U+2029, U+202F, U+205F and U+3000. *)
Definition utf8_spaces : list (list nat) :=
  [[9]; [10]; [11]; [12]; [13]; [28]; [29]; [30]; [31]; [32];
   [194; 133]; [194; 160];
   [225; 154; 128];
   [226; 128; 128]; [226; 128; 129]; [226; 128; 130]; [226; 128; 131];
   [226; 128; 132]; [226; 128; 133]; [226; 128; 134]; [226; 128; 135];
   [226; 128; 136]; [226; 128; 137]; [226; 128; 138];
   [226; 128; 168]; [226; 128; 169]; [226; 128; 175];
   [226; 129; 159];
   [227; 128; 128]].

Fixpoint is_prefix (w : list nat) (cs : list ascii) : bool :=
  match w, cs with
  | [], _ => true
  | n :: w', c :: cs' => Nat.eqb n (nat_of_ascii c) && is_prefix w' cs'
  | _ :: _, [] => false
  end.

(** Drop leading characters of [seqs] while there is one; each round drops
    at least one byte, so [length cs] rounds suffice. *)
Fixpoint drop_spaces (fuel : nat) (seqs : list (list nat)) (cs : list ascii)
  : list ascii :=
  match fuel with
  | O => cs
  | S f =>
      match List.find (fun w => is_prefix w cs) seqs with
      | Some w => drop_spaces f seqs (skipn (length w) cs)
      | None => cs
      end
  end.

(** The left end, then the right end (the reversed bytes, matched against
    the reversed encodings; UTF-8 makes both matches unambiguous). *)
Definition strip (s : string) : string :=
  let cs := drop_spaces (length (list_ascii_of_string s)) utf8_spaces
              (list_ascii_of_string s) in
  string_of_list_ascii
    (rev (drop_spaces (length cs) (map (@rev nat) utf8_spaces) (rev cs))).

(** ** [DatasetBuilder._ignore_duplicates] *)

Module DatasetBuilder.

(** The [for sample in samples] loop, with [seen_titles] threaded. *)
Fixpoint ignore_loop (seen_titles : gset string) (samples : list sample)
  : list sample :=
  match samples with
  | [] => []
  | smp :: rest =>
      let t := strip (title smp) in
      if negb (String.eqb t "") && negb (bool_decide (t ∈ seen_titles))
      then smp :: ignore_loop ({[t]} ∪ seen_titles) rest
      else ignore_loop seen_titles rest
  end.

Definition _ignore_duplicates (samples : list sample) : list sample :=
  ignore_loop ∅ samples.

(** [_read_raw_dataset]: [jsonlines.open(path, mode="r")] raises when the
    file does not exist; otherwise [list(reader)], every line in order. *)
Inductive read_error := FileNotFoundError.

Definition _read_raw_dataset (raw_dataset : option (list sample))
  : read_error + list sample :=
  match raw_dataset with
  | None => inl FileNotFoundError
  | Some recs => inr recs
  end.

(** [dataset_dict.push_to_hub(repo, private=True)] of a [DatasetDict]
    whose splits are built with [Dataset.from_list]. *)
Record hub_push := mk_hub_push {
  repo_id : string;
  private : bool;
  splits : list (string * list sample)
}.

(** [build_dataset]: read, deduplicate, and push only when asked. *)
Definition build_dataset (push_to_hub : bool) (raw_dataset : option (list sample))
  : read_error + option hub_push :=
  match _read_raw_dataset raw_dataset with
  | inl e => inl e
  | inr samples =>
      let samples := _ignore_duplicates samples in
      if push_to_hub then
        inr (Some (mk_hub_push "alexandrainst/lrytas-summarization" true
                     [("train", samples)]))
      else inr None
  end.

End DatasetBuilder.

(** ** Crawl state, events and errors *)

(** What [soup] yields through the selectors of [_get_title],
    [_get_text] and [_get_summary] ("" when the element is missing). *)
Record soup := mk_soup {
  h1_title : string;
  article_content : string;
  summary_div : string
}.

(** The answer of [self.session.get(url=...)]: an error status (on which
    [raise_for_status] raises) or a page. *)
Inductive response :=
  | HttpErrorStatus (status : nat)
  | HttpPage (page : soup).

Inductive event :=
  | EPop (query : string)               (* [self.words.pop()] returned query *)
  | ESearchFetch (page_url : string)    (* [self.driver.get(url)] *)
  | EArticleFetch (article_url : string)(* [self.session.get(url=...)] *)
  | EShortSleep (lo hi : Z)             (* [_short_sleep], range in ms *)
  | ELongSleep (lo hi : Z)              (* [_long_sleep], range in ms *)
  | EAppend (smp : sample).             (* [writer.write(sample)] *)

(** Exceptions that can leave [scrape]. [OutOfFuel] is the bound of the
    loop embedding, shown never to be reached. *)
Inductive exn :=
  | IndexError                          (* [pop] from an empty list *)
  | HTTPError (article_url : string)    (* [raise_for_status] *)
  | OutOfFuel.

(** The dataset file: [None] when it does not exist. *)
Definition file_records (f : option (list sample)) : list sample :=
  match f with None => [] | Some l => l end.

Record st := mk_st {
  dataset_length : nat;
  seen_urls : gset string;
  words : list string;
  dataset_file : option (list sample);
  cookie_button_clicked : bool;
  log : list event                      (* newest first *)
}.

(** ** A state and exception monad *)

Inductive result (A : Type) := Ok (a : A) | Err (e : exn).
Arguments Ok {A} a.
Arguments Err {A} e.

Definition M (A : Type) := st -> result A * st.

Definition ret {A} (a : A) : M A := fun s => (Ok a, s).
Definition bind {A B} (m : M A) (k : A -> M B) : M B :=
  fun s => match m s with
           | (Ok a, s') => k a s'
           | (Err e, s') => (Err e, s')
           end.
Definition raise {A} (e : exn) : M A := fun s => (Err e, s).
Definition gets {A} (f : st -> A) : M A := fun s => (Ok (f s), s).
Definition modify (f : st -> st) : M unit := fun s => (Ok tt, f s).

Notation "'let*' x ':=' m 'in' k" := (bind m (fun x => k))
  (at level 200, x name, m at level 100, k at level 200).
Notation "m ;; k" := (bind m (fun _ => k)) (at level 100, right associativity).

Definition push_event (e : event) (s : st) : st :=
  mk_st (dataset_length s) (seen_urls s) (words s) (dataset_file s)
        (cookie_button_clicked s) (e :: log s).

Definition emit (e : event) : M unit := modify (push_event e).

(** ** [Scraper] *)

Section Scraper.

(** The hrefs of the [h3 > a] links of the search page rendered at a URL,
    in document order (browser and BeautifulSoup). *)
Variable search_links : string -> list string.
(** [tldextract.extract(link).domain]. *)
Variable link_domain : string -> string.
(** [self.session.get(url=...)]. *)
Variable http_get : string -> response.
Variable max_articles : nat.
Variable debug : bool.

Definition base_url (query : string) : string :=
  "https://www.lrytas.lt/search?q=" ++ query.

(** [_short_sleep] and [_long_sleep]: [random.uniform] ranges, in ms. *)
Definition short_range : Z * Z :=
  if debug then (100, 150)%Z else (30000, 60000)%Z.
Definition long_range : Z * Z :=
  if debug then (100, 150)%Z else (300000, 420000)%Z.

Definition _short_sleep : M unit :=
  emit (EShortSleep (fst short_range) (snd short_range)).
Definition _long_sleep : M unit :=
  emit (ELongSleep (fst long_range) (snd long_range)).

(** [self.words.pop()]: removes and returns the last element, raises
    [IndexError] on an empty list. *)
Definition pop : M string := fun s =>
  match words s with
  | [] => (Err IndexError, s)
  | w :: ws =>
      let q := List.last (w :: ws) "" in
      (Ok q, mk_st (dataset_length s) (seen_urls s) (removelast (w :: ws))
                   (dataset_file s) (cookie_button_clicked s) (EPop q :: log s))
  end.

Definition set_cookie_clicked (s : st) : st :=
  mk_st (dataset_length s) (seen_urls s) (words s) (dataset_file s)
        true (log s).

(** The link normalisation in the [for h3 in soup.find_all("h3")] loop. *)
Definition normalize_link (link : string) : string :=
  if String.eqb (link_domain link) "lrytas" then link
  else "https://www.lrytas.lt" ++ link.

(** [_get_article_urls]: page load, then the short sleep, then the cookie
    button (its exceptions are caught and logged), then parsing. *)
Definition _get_article_urls (query : string) : M (list string) :=
  let u := base_url query in
  emit (ESearchFetch u) ;;
  _short_sleep ;;
  let* clicked := gets cookie_button_clicked in
  (if clicked then ret tt else modify set_cookie_clicked) ;;
  ret (map normalize_link (search_links u)).

Definition _get_title (sp : soup) : string := h1_title sp.
Definition _get_text (sp : soup) : string := article_content sp.
Definition _get_summary (sp : soup) : string := summary_div sp.

(** [_get_article_data]. *)
Definition _get_article_data (article_url : string) : M (option sample) :=
  _short_sleep ;;
  emit (EArticleFetch article_url) ;;
  match http_get article_url with
  | HttpErrorStatus _ => raise (HTTPError article_url)
  | HttpPage sp =>
      let t := _get_title sp in
      let x := _get_text sp in
      let sm := _get_summary sp in
      if String.eqb x "" || String.eqb sm "" then ret None
      else ret (Some (mk_sample article_url t sm x))
  end.

(** [_save_sample]: touch, append one line, mark seen, count. *)
Definition append_record (smp : sample) (s : st) : st :=
  mk_st (S (dataset_length s)) ({[url smp]} ∪ seen_urls s) (words s)
        (Some (file_records (dataset_file s) ++ [smp])%list)
        (cookie_button_clicked s) (EAppend smp :: log s).

Definition _save_sample (smp : sample) : M unit := modify (append_record smp).

(** One iteration of [for article_url in article_urls] in [_scrape]. *)
Definition scrape_url (article_url : string) : M unit :=
  let* seen := gets seen_urls in
  if bool_decide (article_url ∈ seen) then ret tt
  else
    let* smp := _get_article_data article_url in
    match smp with
    | Some x => _save_sample x
    | None => ret tt
    end.

Fixpoint scrape_urls (article_urls : list string) : M unit :=
  match article_urls with
  | [] => ret tt
  | u :: rest => scrape_url u ;; scrape_urls rest
  end.

(** [_scrape]. *)
Definition _scrape (query : string) : M bool :=
  let* article_urls := _get_article_urls query in
  match article_urls with
  | [] => ret false
  | _ => scrape_urls article_urls ;; ret true
  end.

(** The inner [while not self._scrape(query=query)] loop of [scrape]. *)
Fixpoint query_loop (fuel : nat) (query : string) : M unit :=
  match fuel with
  | O => raise OutOfFuel
  | S f =>
      let* ok := _scrape query in
      if ok then ret tt
      else _long_sleep ;; let* q := pop in query_loop f q
  end.

(** The outer [while self.dataset_length < self.max_articles] loop. *)
Fixpoint scrape_loop (fuel : nat) (track : nat) : M unit :=
  match fuel with
  | O => raise OutOfFuel
  | S f =>
      let* n := gets dataset_length in
      if (n <? max_articles)%nat then
        let* track' :=
          (if (25 <? n - track)%nat then _long_sleep ;; gets dataset_length
           else ret track) in
        let* query := pop in
        let* w := gets words in
        query_loop (S (length w)) query ;;
        scrape_loop f track'
      else ret tt
  end.

(** [scrape]: [track = self.dataset_length], then the loop. *)
Definition scrape : M unit := fun s =>
  scrape_loop (S (length (words s))) (dataset_length s) s.

End Scraper.

(** [_get_dataset_info]: nothing when the file is absent, otherwise one
    [seen_urls.add] and one increment per record. *)
Definition _get_dataset_info (f : option (list sample)) : nat * gset string :=
  match f with
  | None => (0%nat, ∅)
  | Some recs =>
      fold_left (fun acc smp => (S (fst acc), {[url smp]} ∪ snd acc))
                recs (0%nat, ∅)
  end.

(** [Scraper.__init__]: [words0] is the shuffled [top_n_list("lt", 1000)]. *)
Definition init (f : option (list sample)) (words0 : list string) : st :=
  let info := _get_dataset_info f in
  mk_st (fst info) (snd info) words0 f false [].

(** ** Observations on states and logs *)

(** Queries returned by [pop], newest first. *)
Fixpoint popped (l : list event) : list string :=
  match l with
  | [] => []
  | EPop q :: r => q :: popped r
  | _ :: r => popped r
  end.

Definition is_long_sleep (e : event) : bool :=
  match e with ELongSleep _ _ => true | _ => false end.

(** The crawl-state invariant of the spec: [count] is the number of
    records, [seen_urls] their URL set, and no URL is stored twice. *)
Definition crawl_inv (s : st) : Prop :=
  dataset_length s = length (file_records (dataset_file s)) /\
  seen_urls s = list_to_set (map url (file_records (dataset_file s))) /\
  NoDup (map url (file_records (dataset_file s))).

(** A computation relates every state to its final state by [R]. *)
Definition stable {A} (R : st -> st -> Prop) (m : M A) : Prop :=
  forall s, R s (snd (m s)).

Definition inv_rel (s s' : st) : Prop := crawl_inv s -> crawl_inv s'.
Definition words_rel (s s' : st) : Prop :=
  words s' = words s /\ popped (log s') = popped (log s).
Definition no_long_rel (s s' : st) : Prop :=
  exists l, log s' = (l ++ log s)%list /\ forallb (fun e => negb (is_long_sleep e)) l = true.
Definition count_mono (s s' : st) : Prop := (dataset_length s <= dataset_length s')%nat.
Definition file_grows (s s' : st) : Prop :=
  exists l, file_records (dataset_file s') = (file_records (dataset_file s) ++ l)%list.

Definition pool_rel (s s' : st) : Prop :=
  (words s ++ popped (log s) = words s' ++ popped (log s'))%list.

(** ** The export-time deduplication as the spec words it *)

Definition title_key (x : sample) : string := strip (title x).

(** A sample is kept when its trimmed title is non-empty and no earlier
    sample (kept or not) has the same trimmed title. *)
Fixpoint title_dedup_from (earlier : list sample) (xs : list sample) : list sample :=
  match xs with
  | [] => []
  | x :: rest =>
      ((if negb (String.eqb (title_key x) "") &&
           forallb (fun y => negb (String.eqb (title_key y) (title_key x))) earlier
        then [x] else []) ++ title_dedup_from (earlier ++ [x]) rest)%list
  end.

Definition title_dedup_spec (xs : list sample) : list sample :=
  title_dedup_from [] xs.

(** ** Counting events, and more relations between states *)

Definition is_short_sleep (e : event) : bool :=
  match e with EShortSleep _ _ => true | _ => false end.

Definition is_page_fetch (e : event) : bool :=
  match e with ESearchFetch _ | EArticleFetch _ => true | _ => false end.

Definition is_search_fetch (e : event) : bool :=
  match e with ESearchFetch _ => true | _ => false end.

Definition is_fetch_of (u : string) (e : event) : bool :=
  match e with EArticleFetch v => String.eqb v u | _ => false end.

Definition is_ok {A} (r : result A) : bool :=
  match r with Ok _ => true | Err _ => false end.

(** How often [u] occurs in a list of links. *)
Definition occurrences (u : string) (us : list string) : nat :=
  length (List.filter (fun v => String.eqb v u) us).

Definition count_events (p : event -> bool) (l : list event) : nat :=
  length (filter p l).

(** The events added between two states hold as many short sleeps as
    page loads. *)
Definition sleeps_paired (s s' : st) : Prop :=
  exists l, log s' = (l ++ log s)%list /\
            count_events is_short_sleep l = count_events is_page_fetch l.

Definition valid_record (x : sample) : Prop := text x <> "" /\ summary x <> "".

(** The file only grows, by records with a text and a summary. *)
Definition valid_appends (s s' : st) : Prop :=
  exists l, file_records (dataset_file s') = (file_records (dataset_file s) ++ l)%list /\
            Forall valid_record l.

(** The cookie flag after a stretch of the crawl: as before, or set when
    the stretch loaded a search page. *)
Definition cookie_rel (s s' : st) : Prop :=
  exists l, log s' = (l ++ log s)%list /\
            cookie_button_clicked s' = cookie_button_clicked s || existsb is_search_fetch l.

(** ** Sample search results and pages *)

Definition letter (i : nat) : string := String (ascii_of_nat (65 + i)) "".

(** [n] distinct query words. *)
Definition query_words (n : nat) : list string := map (fun i => "w" ++ letter i) (seq 0 n).

(** Search results: one relative link per search page, three, or thirty. *)
Definition one_link (page : string) : list string := ["/" ++ page].
Definition three_links (page : string) : list string :=
  map (fun i => "/" ++ letter i ++ page) (seq 0 3).
Definition thirty_links (page : string) : list string :=
  map (fun i => "/a" ++ letter i) (seq 0 30).
(** A search page listing the same link twice, with another between. *)
Definition twice_links (page : string) : list string := ["/x"; "/y"; "/x"].
Definition no_domain (link : string) : string := "".

(** Article pages: valid, valid without title, or an error status. *)
Definition page_ok (u : string) : response := HttpPage (mk_soup "T" "body" "sum").
Definition page_untitled (u : string) : response := HttpPage (mk_soup "" "body" "sum").
Definition page_error (u : string) : response := HttpErrorStatus 503.
Definition page_no_text (u : string) : response := HttpPage (mk_soup "T" "" "sum").

(** The article URL [one_link] yields for a query. *)
Definition one_article (q : string) : string := "https://www.lrytas.lt" ++ ("/" ++ base_url q).

(** * Proofs *)

(** ** Generic facts on the monad *)

Section Stable.
Context (R : st -> st -> Prop) `{!Reflexive R} `{!Transitive R}.

Lemma stable_ret {A} (a : A) : stable R (ret a).
Proof. intros s. simpl. reflexivity. Qed.

Lemma stable_raise {A} (e : exn) : stable R (@raise A e).
Proof. intros s. simpl. reflexivity. Qed.

Lemma stable_gets {A} (f : st -> A) : stable R (gets f).
Proof. intros s. simpl. reflexivity. Qed.

Lemma stable_bind {A B} (m : M A) (k : A -> M B) :
  stable R m -> (forall a, stable R (k a)) -> stable R (bind m k).
Proof.
  intros Hm Hk s. unfold bind.
  specialize (Hm s). destruct (m s) as [[a|e] s'] eqn:E; simpl in *.
  - etransitivity; [exact Hm | apply Hk].
  - exact Hm.
Qed.

Lemma stable_modify (f : st -> st) : (forall s, R s (f s)) -> stable R (modify f).
Proof. intros H s. apply H. Qed.

End Stable.

Ltac stable_step :=
  match goal with
  | |- stable _ (bind _ _) =>
      apply stable_bind; try typeclasses eauto; [ | intros ? ]
  | |- stable _ (ret _) => apply stable_ret; typeclasses eauto
  | |- stable _ (raise _) => apply stable_raise; typeclasses eauto
  | |- stable _ (gets _) => apply stable_gets; typeclasses eauto
  | |- stable _ (if ?b then _ else _) => destruct b
  | |- stable _ (match ?x with _ => _ end) => destruct x
  end.

#[local] Instance inv_rel_refl : Reflexive inv_rel.
Proof. intros s H. exact H. Qed.
#[local] Instance inv_rel_trans : Transitive inv_rel.
Proof. intros s1 s2 s3 H1 H2 H. auto. Qed.
#[local] Instance words_rel_refl : Reflexive words_rel.
Proof. intros s. split; reflexivity. Qed.
#[local] Instance words_rel_trans : Transitive words_rel.
Proof. intros s1 s2 s3 [H1 H2] [H3 H4]. split; congruence. Qed.
#[local] Instance no_long_rel_refl : Reflexive no_long_rel.
Proof. intros s. exists []. split; reflexivity. Qed.
#[local] Instance no_long_rel_trans : Transitive no_long_rel.
Proof.
  intros s1 s2 s3 [l1 [E1 F1]] [l2 [E2 F2]]. exists (l2 ++ l1)%list. split.
  - rewrite E2, E1. apply app_assoc.
  - rewrite forallb_app, F1, F2. reflexivity.
Qed.
#[local] Instance count_mono_refl : Reflexive count_mono.
Proof. intros s. unfold count_mono. lia. Qed.
#[local] Instance count_mono_trans : Transitive count_mono.
Proof. intros s1 s2 s3. unfold count_mono. lia. Qed.
#[local] Instance pool_rel_refl : Reflexive pool_rel.
Proof. intros s. reflexivity. Qed.
#[local] Instance pool_rel_trans : Transitive pool_rel.
Proof. intros s1 s2 s3 H1 H2. unfold pool_rel in *. congruence. Qed.
#[local] Instance file_grows_refl : Reflexive file_grows.
Proof. intros s. exists []. rewrite app_nil_r. reflexivity. Qed.
#[local] Instance file_grows_trans : Transitive file_grows.
Proof.
  intros s1 s2 s3 [l1 E1] [l2 E2]. exists (l1 ++ l2)%list.
  rewrite E2, E1. apply eq_sym, app_assoc.
Qed.

#[local] Instance sleeps_paired_refl : Reflexive sleeps_paired.
Proof. intros s. exists []. split; reflexivity. Qed.
#[local] Instance sleeps_paired_trans : Transitive sleeps_paired.
Proof.
  intros s1 s2 s3 [l1 [E1 C1]] [l2 [E2 C2]]. exists (l2 ++ l1)%list. split.
  - rewrite E2, E1. apply app_assoc.
  - unfold count_events in *. rewrite !filter_app, !length_app. lia.
Qed.
#[local] Instance valid_appends_refl : Reflexive valid_appends.
Proof. intros s. exists []. rewrite app_nil_r. split; [reflexivity|constructor]. Qed.
#[local] Instance valid_appends_trans : Transitive valid_appends.
Proof.
  intros s1 s2 s3 [l1 [E1 F1]] [l2 [E2 F2]]. exists (l1 ++ l2)%list. split.
  - rewrite E2, E1. apply eq_sym, app_assoc.
  - apply Forall_app. split; assumption.
Qed.
#[local] Instance cookie_rel_refl : Reflexive cookie_rel.
Proof. intros s. exists []. rewrite orb_false_r. split; reflexivity. Qed.
#[local] Instance cookie_rel_trans : Transitive cookie_rel.
Proof.
  intros s1 s2 s3 [l1 [E1 C1]] [l2 [E2 C2]]. exists (l2 ++ l1)%list. split.
  - rewrite E2, E1. apply app_assoc.
  - rewrite C2, C1, existsb_app, <- orb_assoc, (orb_comm (existsb _ l2)). reflexivity.
Qed.

(** [_get_dataset_info] on a file of records. *)
Lemma dataset_info_fold (recs : list sample) (n : nat) (X : gset string) :
  fold_left (fun acc smp => (S (fst acc), {[url smp]} ∪ snd acc)) recs (n, X) =
  ((n + length recs)%nat, list_to_set (map url recs) ∪ X).
Proof.
  revert n X. induction recs as [|r recs IH]; intros n X; simpl.
  - f_equal; [lia | set_solver].
  - rewrite IH. f_equal; [lia | set_solver].
Qed.

(** ** Frame lemmas for the crawler *)

Section Facts.
Variable search_links : string -> list string.
Variable link_domain : string -> string.
Variable http_get : string -> response.
Variable max_articles : nat.
Variable debug : bool.

Local Abbreviation urls_of q := (map (normalize_link link_domain) (search_links (base_url q))).
Local Abbreviation get_urls := (_get_article_urls search_links link_domain debug).
Local Abbreviation get_data := (_get_article_data http_get debug).
Local Abbreviation scrape_url' := (scrape_url http_get debug).
Local Abbreviation scrape_urls' := (scrape_urls http_get debug).
Local Abbreviation scrape_q := (_scrape search_links link_domain http_get debug).
Local Abbreviation qloop := (query_loop search_links link_domain http_get debug).
Local Abbreviation sloop := (scrape_loop search_links link_domain http_get max_articles debug).
Local Abbreviation run := (scrape search_links link_domain http_get max_articles debug).

Ltac solve_stable :=
  repeat (first [ stable_step | apply stable_modify; intros ? ]).

Ltac unfold_crawler :=
  unfold _get_article_urls, _get_article_data, _save_sample, _short_sleep,
    _long_sleep, emit; cbv beta.

(** Everything but [pop] leaves the word pool alone. *)
Lemma get_data_words u : stable words_rel (get_data u).
Proof. unfold_crawler. solve_stable; try (split; reflexivity). Qed.

Lemma scrape_url_words u : stable words_rel (scrape_url' u).
Proof.
  unfold scrape_url; unfold_crawler.
  solve_stable; try (split; reflexivity).
Qed.

Lemma scrape_urls_stable (R : st -> st -> Prop) `{!Reflexive R} `{!Transitive R} us :
  (forall u, stable R (scrape_url' u)) -> stable R (scrape_urls' us).
Proof.
  intros H. induction us as [|u us IH]; simpl.
  - apply stable_ret; typeclasses eauto.
  - apply stable_bind; auto.
Qed.

Lemma scrape_q_stable (R : st -> st -> Prop) `{!Reflexive R} `{!Transitive R} q :
  stable R (get_urls q) -> (forall u, stable R (scrape_url' u)) -> stable R (scrape_q q).
Proof.
  intros Hg Hu. unfold _scrape; cbv beta.
  apply stable_bind; [typeclasses eauto|exact Hg|].
  intros us. destruct us; [apply stable_ret; typeclasses eauto|].
  apply stable_bind; [typeclasses eauto|apply scrape_urls_stable; auto | intros; apply stable_ret; typeclasses eauto].
Qed.

Lemma scrape_q_words q : stable words_rel (scrape_q q).
Proof.
  apply scrape_q_stable; try typeclasses eauto.
  - unfold_crawler. solve_stable; try (split; reflexivity).
  - apply scrape_url_words.
Qed.

(** No long sleep happens inside [_scrape]. *)
Lemma scrape_q_no_long q : stable no_long_rel (scrape_q q).
Proof.
  apply scrape_q_stable; try typeclasses eauto.
  - unfold_crawler.
    solve_stable; try (match goal with
                       | |- no_long_rel ?s (push_event ?e ?s) => exists [e]
                       | |- no_long_rel ?s _ => exists []
                       end; split; reflexivity).
  - intros u. unfold scrape_url; unfold_crawler.
    solve_stable; try (match goal with
                       | |- no_long_rel ?s (push_event ?e ?s) => exists [e]
                       | |- no_long_rel ?s (append_record ?x ?s) => exists [EAppend x]
                       | |- no_long_rel ?s _ => exists []
                       end; split; reflexivity).
Qed.

(** [_get_article_data] leaves the crawl state alone and a sample it
    returns carries the requested URL. *)
Lemma get_data_frame u s :
  dataset_length (snd (get_data u s)) = dataset_length s /\
  seen_urls (snd (get_data u s)) = seen_urls s /\
  dataset_file (snd (get_data u s)) = dataset_file s /\
  (forall x, fst (get_data u s) = Ok (Some x) -> url x = u).
Proof.
  unfold_crawler. unfold bind, modify; simpl.
  destruct (http_get u) as [c|sp]; simpl.
  - repeat split; intros x H; discriminate H.
  - destruct (_ || _); simpl; repeat split; intros x H; inversion H; reflexivity.
Qed.

Lemma scrape_url_inv u : stable inv_rel (scrape_url' u).
Proof.
  intros s Hinv. unfold scrape_url, bind, gets; simpl.
  destruct (bool_decide (u ∈ seen_urls s)) eqn:Hs; [exact Hinv|].
  apply bool_decide_eq_false in Hs.
  destruct (get_data_frame u s) as (Hn & Hseen & Hf & Hx).
  destruct (get_data u s) as [[[x|]|e] s1]; simpl in *.
  - specialize (Hx x eq_refl). subst u.
    destruct Hinv as (I1 & I2 & I3).
    unfold _save_sample, modify, append_record; simpl.
    rewrite Hf. repeat split; simpl.
    + rewrite length_app, Hn, I1; simpl; lia.
    + rewrite map_app, list_to_set_app_L, Hseen, I2. simpl. set_solver.
    + rewrite map_app. apply NoDup_app. repeat split; [exact I3| |apply NoDup_singleton].
      intros v Hv Hv'. apply list_elem_of_singleton in Hv'. subst v.
      apply Hs. rewrite I2. apply elem_of_list_to_set. exact Hv.
  - destruct Hinv as (I1 & I2 & I3). repeat split; congruence.
  - destruct Hinv as (I1 & I2 & I3). repeat split; congruence.
Qed.

Lemma get_urls_inv q : stable inv_rel (get_urls q).
Proof.
  unfold_crawler. solve_stable; try (intros H; exact H).
Qed.

Lemma scrape_q_inv q : stable inv_rel (scrape_q q).
Proof.
  apply scrape_q_stable; try typeclasses eauto.
  - apply get_urls_inv.
  - apply scrape_url_inv.
Qed.

(** The two outcomes of [self.words.pop()]. *)
Lemma pop_cases s :
  (words s = [] /\ pop s = (Err IndexError, s)) \/
  (words s <> [] /\
   pop s = (Ok (List.last (words s) ""),
            mk_st (dataset_length s) (seen_urls s) (removelast (words s))
                  (dataset_file s) (cookie_button_clicked s)
                  (EPop (List.last (words s) "") :: log s))).
Proof.
  unfold pop. destruct (words s) as [|w ws]; [left | right]; split; auto; discriminate.
Qed.

(** A relation kept by [_scrape], [pop] and [_long_sleep] is kept by both
    loops. *)
Lemma loops_stable (R : st -> st -> Prop) `{!Reflexive R} `{!Transitive R} :
  (forall q, stable R (scrape_q q)) -> stable R pop ->
  stable R (_long_sleep debug) ->
  (forall fuel q, stable R (qloop fuel q)) /\
  (forall fuel track, stable R (sloop fuel track)).
Proof.
  intros Hs Hp Hl.
  assert (Hq : forall fuel q, stable R (qloop fuel q)).
  { induction fuel as [|f IH]; intros q; simpl.
    - apply stable_raise; typeclasses eauto.
    - apply stable_bind; [typeclasses eauto|apply Hs|]. intros [|].
      + apply stable_ret; typeclasses eauto.
      + apply stable_bind; [typeclasses eauto|apply Hl|]. intros _.
        apply stable_bind; [typeclasses eauto|apply Hp|]. intros q'. apply IH. }
  split; [exact Hq|].
  induction fuel as [|f IH]; intros track; simpl.
  - apply stable_raise; typeclasses eauto.
  - apply stable_bind; [typeclasses eauto|apply stable_gets; typeclasses eauto|].
    intros n. destruct (n <? max_articles)%nat; [|apply stable_ret; typeclasses eauto].
    apply stable_bind; [typeclasses eauto| |].
    + destruct (25 <? n - track)%nat.
      * apply stable_bind; [typeclasses eauto|apply Hl|]. intros _.
        apply stable_gets; typeclasses eauto.
      * apply stable_ret; typeclasses eauto.
    + intros track'. apply stable_bind; [typeclasses eauto|apply Hp|]. intros q.
      apply stable_bind; [typeclasses eauto|apply stable_gets; typeclasses eauto|].
      intros w. apply stable_bind; [typeclasses eauto|exact (Hq (S (length w)) q)|].
      intros _. apply IH.
Qed.

Lemma scrape_inv : stable inv_rel run.
Proof.
  destruct (loops_stable inv_rel) as [_ Hl].
  - apply scrape_q_inv.
  - intros s H. destruct (pop_cases s) as [[_ E]|[_ E]]; rewrite E; exact H.
  - unfold _long_sleep, emit. intros s H. exact H.
  - intros s. unfold scrape. apply Hl.
Qed.

Lemma scrape_file_grows : stable file_grows run.
Proof.
  destruct (loops_stable file_grows) as [_ Hl].
  - intros q. apply scrape_q_stable; try typeclasses eauto.
    + unfold_crawler. solve_stable; exists []; simpl; apply eq_sym, app_nil_r.
    + intros u. unfold scrape_url; unfold_crawler. solve_stable;
        first [ match goal with |- file_grows _ (append_record ?x _) => exists [x]; reflexivity end
              | exists []; simpl; apply eq_sym, app_nil_r ].
  - intros s. destruct (pop_cases s) as [[_ E]|[_ E]]; rewrite E; [reflexivity|].
    exists []. simpl. rewrite app_nil_r. reflexivity.
  - unfold _long_sleep, emit. intros s. exists []. simpl. apply eq_sym, app_nil_r.
  - intros s. unfold scrape. apply Hl.
Qed.

(** C2: during any run, a URL already in [seen_urls] is skipped without an
    article fetch, the file only grows, and the crawl invariant (no URL
    stored twice, [seen_urls] the URLs of the records, [dataset_length]
    their number) holds after recovery from a file without duplicate URLs
    and is kept by [scrape], also when it stops on an exception. *)
Theorem crawl_never_appends_url_twice :
  (forall u s, u ∈ seen_urls s -> scrape_url' u s = (Ok tt, s)) /\
  (forall f w, NoDup (map url (file_records f)) -> crawl_inv (init f w)) /\
  (forall s, crawl_inv s ->
     crawl_inv (snd (run s)) /\ file_grows s (snd (run s))).
Proof.
  split; [|split].
  - intros u s H. unfold scrape_url, bind, gets; simpl.
    rewrite bool_decide_eq_true_2 by exact H. reflexivity.
  - intros [recs|] w H; unfold init, crawl_inv; simpl.
    + rewrite dataset_info_fold. simpl. split; [|split]; [lia|set_solver|exact H].
    + repeat split. constructor.
  - intros s H. split; [apply scrape_inv, H | apply scrape_file_grows].
Qed.

(** ** Running the crawler step by step *)

Lemma bind_run {A B} (m : M A) (k : A -> M B) s a s' :
  m s = (Ok a, s') -> bind m k s = k a s'.
Proof. intros E. unfold bind. rewrite E. reflexivity. Qed.

Lemma bind_err {A B} (m : M A) (k : A -> M B) s e s' :
  m s = (Err e, s') -> bind m k s = (Err e, s').
Proof. intros E. unfold bind. rewrite E. reflexivity. Qed.

Lemma bind_gets {A B} (f : st -> A) (k : A -> M B) s : bind (gets f) k s = k (f s) s.
Proof. reflexivity. Qed.

Lemma bind_ret {A B} (a : A) (k : A -> M B) s : bind (ret a) k s = k a s.
Proof. reflexivity. Qed.

Lemma bind_assoc_run {A B C} (m : M A) (k : A -> M B) (g : B -> M C) s :
  bind (bind m k) g s = bind m (fun a => bind (k a) g) s.
Proof. unfold bind. destruct (m s) as [[a|e] s']; reflexivity. Qed.

Lemma get_urls_run q s :
  get_urls q s =
  (Ok (urls_of q),
   mk_st (dataset_length s) (seen_urls s) (words s) (dataset_file s) true
         (EShortSleep (fst (short_range debug)) (snd (short_range debug))
            :: ESearchFetch (base_url q) :: log s)).
Proof.
  unfold_crawler. unfold bind, modify, gets, ret, push_event, set_cookie_clicked; simpl.
  destruct (cookie_button_clicked s) eqn:C; simpl; rewrite ?C; reflexivity.
Qed.

Lemma scrape_url_new_valid u s sp :
  u ∉ seen_urls s -> http_get u = HttpPage sp ->
  article_content sp <> "" -> summary_div sp <> "" ->
  scrape_url' u s =
  (Ok tt, append_record (mk_sample u (h1_title sp) (summary_div sp) (article_content sp))
            (push_event (EArticleFetch u)
               (push_event (EShortSleep (fst (short_range debug)) (snd (short_range debug))) s))).
Proof.
  intros Hs Hg Ht Hsm. unfold scrape_url; unfold_crawler. unfold bind, gets, modify, ret; simpl.
  rewrite bool_decide_eq_false_2 by exact Hs. simpl. rewrite Hg.
  unfold _get_text, _get_summary, _get_title.
  apply String.eqb_neq in Ht, Hsm. rewrite Ht, Hsm. reflexivity.
Qed.

Lemma pop_run s w q :
  words s = (w ++ [q])%list ->
  pop s = (Ok q, mk_st (dataset_length s) (seen_urls s) w (dataset_file s)
                       (cookie_button_clicked s) (EPop q :: log s)).
Proof.
  intros E. destruct (pop_cases s) as [[Hn _]|[_ P]].
  - rewrite E in Hn. destruct w; discriminate.
  - rewrite P, E, List.last_last, removelast_last. reflexivity.
Qed.

(** One outer iteration whose query yields one new, valid article. *)
Lemma outer_step_single f track s w q u sp :
  (dataset_length s < max_articles)%nat -> (dataset_length s - track <= 25)%nat ->
  words s = (w ++ [q])%list -> urls_of q = [u] -> u ∉ seen_urls s ->
  http_get u = HttpPage sp -> article_content sp <> "" -> summary_div sp <> "" ->
  exists s',
    sloop (S f) track s = sloop f track s' /\
    dataset_length s' = S (dataset_length s) /\
    seen_urls s' = {[u]} ∪ seen_urls s /\
    words s' = w /\
    dataset_file s' = Some (file_records (dataset_file s) ++
                             [mk_sample u (h1_title sp) (summary_div sp) (article_content sp)])%list /\
    popped (log s') = q :: popped (log s).
Proof.
  intros Hn Ht Hw Hq Hu Hg Hc Hs.
  simpl scrape_loop. rewrite bind_gets. cbv beta.
  apply Nat.ltb_lt in Hn. rewrite Hn.
  assert (Ht' : (25 <? dataset_length s - track)%nat = false) by (apply Nat.ltb_ge; exact Ht).
  rewrite Ht', bind_ret.
  rewrite (bind_run _ _ _ _ _ (pop_run s w q Hw)), bind_gets. cbv beta. simpl words.
  eexists. split.
  - simpl query_loop. unfold _scrape at 1. rewrite !bind_assoc_run.
    rewrite (bind_run _ _ _ _ _ (get_urls_run q _)). rewrite Hq. simpl scrape_urls.
    rewrite !bind_assoc_run.
    erewrite bind_run; [|apply (scrape_url_new_valid u _ sp); [exact Hu|exact Hg|exact Hc|exact Hs]].
    reflexivity.
  - simpl. repeat split; reflexivity.
Qed.

(** The outer loop stops, untouched, once the target count is reached. *)
Lemma sloop_done f track s :
  (max_articles <= dataset_length s)%nat -> sloop (S f) track s = (Ok tt, s).
Proof.
  intros H. simpl scrape_loop. rewrite bind_gets. cbv beta.
  apply Nat.ltb_ge in H. rewrite H. reflexivity.
Qed.

(** C4: once [dataset_length >= max_articles] the loop ends with no further
    effect; with [max_articles = 3] and one new, valid article per query,
    a fresh crawl appends exactly 3 samples, pops exactly 3 queries (the
    last three words of the pool) and stops. *)
Theorem crawl_stops_at_max_articles :
  (forall f track s, (max_articles <= dataset_length s)%nat ->
     sloop (S f) track s = (Ok tt, s)) /\
  (max_articles = 3%nat ->
   forall (article_of : string -> string) (w : list string) (a b c : string),
     (forall q, urls_of q = [article_of q]) ->
     (forall q1 q2, article_of q1 = article_of q2 -> q1 = q2) ->
     (forall u, exists sp, http_get u = HttpPage sp /\
                  article_content sp <> "" /\ summary_div sp <> "") ->
     NoDup [a; b; c] ->
     let r := run (init None (w ++ [a; b; c])%list) in
     fst r = Ok tt /\ dataset_length (snd r) = 3%nat /\
     length (file_records (dataset_file (snd r))) = 3%nat /\
     words (snd r) = w /\ popped (log (snd r)) = [a; b; c]).
Proof.
  split; [exact sloop_done|].
  intros Hmax art w a b c Hurls Hinj Hget Hnd r.
  assert (Hne : forall q1 q2, q1 <> q2 -> art q1 <> art q2) by (intros q1 q2 H E; apply H, Hinj, E).
  apply NoDup_cons in Hnd as [Ha Hnd]. apply NoDup_cons in Hnd as [Hb _].
  assert (Hab : a <> b) by (intros ->; apply Ha; left; reflexivity).
  assert (Hac : a <> c) by (intros ->; apply Ha; right; left; reflexivity).
  assert (Hbc : b <> c) by (intros ->; apply Hb; left; reflexivity).
  destruct (Hget (art c)) as (spc & Gc & Tc & Sc).
  destruct (Hget (art b)) as (spb & Gb & Tb & Sb).
  destruct (Hget (art a)) as (spa & Ga & Ta & Sa).
  assert (Hl : S (length (w ++ [a; b; c])%list) = S (S (S (S (length w)))))
    by (rewrite length_app; simpl; lia).
  subst r. unfold scrape, init, _get_dataset_info. cbn [fst snd words dataset_length].
  rewrite Hl.
  destruct (outer_step_single (S (S (S (length w)))) 0 (mk_st 0 ∅ (w ++ [a; b; c]) None false [])
              (w ++ [a; b]) c (art c) spc)
    as (s1 & E1 & N1 & U1 & W1 & F1 & P1);
    [simpl; lia | simpl; lia | simpl; rewrite <- app_assoc; reflexivity | apply Hurls
     | simpl; set_solver | exact Gc | exact Tc | exact Sc |].
  rewrite E1.
  destruct (outer_step_single (S (S (length w))) 0 s1 (w ++ [a]) b (art b) spb)
    as (s2 & E2 & N2 & U2 & W2 & F2 & P2);
    [rewrite N1; simpl; lia | rewrite N1; simpl; lia | rewrite W1, <- app_assoc; reflexivity
     | apply Hurls | rewrite U1; specialize (Hne _ _ Hbc); set_solver
     | exact Gb | exact Tb | exact Sb |].
  rewrite E2.
  destruct (outer_step_single (S (length w)) 0 s2 w a (art a) spa)
    as (s3 & E3 & N3 & U3 & W3 & F3 & P3);
    [rewrite N2, N1; simpl; lia | rewrite N2, N1; simpl; lia | exact W2
     | apply Hurls | rewrite U2, U1; pose proof (Hne _ _ Hab); pose proof (Hne _ _ Hac); set_solver
     | exact Ga | exact Ta | exact Sa |].
  rewrite E3, sloop_done by (rewrite N3, N2, N1; simpl; lia). simpl.
  repeat split; try (rewrite N3, N2, N1; reflexivity).
  - rewrite F3, F2, F1. reflexivity.
  - exact W3.
  - rewrite P3, P2, P1. reflexivity.
Qed.

(** ** Counting appends *)

Lemma scrape_url_count u s :
  (dataset_length (snd (scrape_url' u s)) <= S (dataset_length s))%nat.
Proof.
  unfold scrape_url, bind, gets; simpl.
  destruct (bool_decide (u ∈ seen_urls s)); simpl; [lia|].
  destruct (get_data_frame u s) as (Hn & _).
  destruct (get_data u s) as [[[x|]|e] s1]; simpl in *; unfold ret; simpl; lia.
Qed.

Lemma scrape_urls_count us s :
  (dataset_length (snd (scrape_urls' us s)) <= dataset_length s + length us)%nat.
Proof.
  revert s. induction us as [|u us IH]; intros s; simpl; [lia|].
  pose proof (scrape_url_count u s) as H.
  destruct (scrape_url' u s) as [[[]|e] s1] eqn:E.
  - rewrite (bind_run _ _ _ _ _ E). specialize (IH s1). simpl in H. lia.
  - rewrite (bind_err _ _ _ _ _ E). simpl in *. lia.
Qed.

Lemma scrape_q_count q s :
  (dataset_length (snd (scrape_q q s)) <= dataset_length s + length (urls_of q))%nat /\
  (fst (scrape_q q s) = Ok false -> urls_of q = []).
Proof.
  unfold _scrape. rewrite (bind_run _ _ _ _ _ (get_urls_run q s)).
  set (s1 := mk_st _ _ _ _ _ _).
  assert (C1 : dataset_length s1 = dataset_length s) by reflexivity. clearbody s1.
  destruct (urls_of q) as [|u us] eqn:U; cbv beta iota.
  - cbn. split; [lia|reflexivity].
  - pose proof (scrape_urls_count (u :: us) s1) as H.
    destruct (scrape_urls' (u :: us) s1) as [[[]|e] s2] eqn:E.
    + rewrite (bind_run _ _ _ _ _ E). cbn in *. split; [lia|discriminate].
    + rewrite (bind_err _ _ _ _ _ E). cbn in *. split; [lia|discriminate].
Qed.

(** A batch of distinct, new, valid URLs is appended in full. *)
Lemma scrape_urls_all_new us s :
  NoDup us ->
  (forall u, In u us -> u ∉ seen_urls s /\
     exists sp, http_get u = HttpPage sp /\ article_content sp <> "" /\ summary_div sp <> "") ->
  fst (scrape_urls' us s) = Ok tt /\
  dataset_length (snd (scrape_urls' us s)) = (dataset_length s + length us)%nat.
Proof.
  revert s. induction us as [|u us IH]; intros s Hnd Hall; simpl; [split; [reflexivity|lia]|].
  apply NoDup_cons in Hnd as [Hu Hnd].
  destruct (Hall u (or_introl eq_refl)) as [Hs (sp & Hg & Hc & Hm)].
  rewrite (bind_run _ _ _ _ _ (scrape_url_new_valid u s sp Hs Hg Hc Hm)).
  destruct (IH (append_record (mk_sample u (h1_title sp) (summary_div sp) (article_content sp))
                 (push_event (EArticleFetch u)
                    (push_event (EShortSleep (fst (short_range debug)) (snd (short_range debug))) s))))
    as [E1 E2]; [exact Hnd| |].
  - intros v Hv. destruct (Hall v (or_intror Hv)) as [Hvs Hvp]. split; [|exact Hvp].
    simpl. rewrite elem_of_union, elem_of_singleton. intros [->|H]; [apply Hu, list_elem_of_In, Hv|apply Hvs, H].
  - split; [exact E1|]. rewrite E2. simpl. lia.
Qed.

Lemma long_sleep_run s :
  _long_sleep debug s =
  (Ok tt, push_event (ELongSleep (fst (long_range debug)) (snd (long_range debug))) s).
Proof. reflexivity. Qed.

Lemma pop_count s : dataset_length (snd (pop s)) = dataset_length s.
Proof. destruct (pop_cases s) as [[_ E]|[_ E]]; rewrite E; reflexivity. Qed.

(** The inner loop ends after the first non-empty query, which is the last
    one popped. *)
Lemma qloop_bound k q s s' :
  hd_error (popped (log s)) = Some q -> qloop k q s = (Ok tt, s') ->
  exists q', hd_error (popped (log s')) = Some q' /\
    (dataset_length s' <= dataset_length s + length (urls_of q'))%nat.
Proof.
  revert q s. induction k as [|k IH]; intros q s Hq E; simpl in E; [discriminate|].
  destruct (scrape_q_count q s) as [Hc Hf].
  destruct (scrape_q_words q s) as [_ Hp].
  destruct (scrape_q q s) as [[[|]|e] s1] eqn:E1; cbn [fst snd] in Hc, Hf, Hp.
  - rewrite (bind_run _ _ _ _ _ E1) in E. unfold ret in E. injection E as <-.
    exists q. split; [rewrite Hp; exact Hq|]. simpl in Hc. lia.
  - rewrite (bind_run _ _ _ _ _ E1) in E. specialize (Hf eq_refl). rewrite Hf in Hc. simpl in Hc.
    rewrite (bind_run _ _ _ _ _ (long_sleep_run s1)) in E.
    destruct (pop_cases (push_event (ELongSleep (fst (long_range debug)) (snd (long_range debug))) s1))
      as [[_ P]|[_ P]]; rewrite (bind_err _ _ _ _ _ P) in E || rewrite (bind_run _ _ _ _ _ P) in E;
      [discriminate|].
    apply IH in E as (q' & Hq' & Hb); [|reflexivity].
    exists q'. split; [exact Hq'|]. simpl in Hb. lia.
  - rewrite (bind_err _ _ _ _ _ E1) in E. discriminate.
Qed.

(** A successful crawl started below the target stops at most one batch
    past it: the batch of the last popped query. *)
Lemma sloop_bound f track s s' :
  (dataset_length s < max_articles)%nat -> sloop f track s = (Ok tt, s') ->
  exists q', hd_error (popped (log s')) = Some q' /\
    (max_articles <= dataset_length s' < max_articles + length (urls_of q'))%nat.
Proof.
  revert track s. induction f as [|f IH]; intros track s Hlt E; cbn [scrape_loop] in E;
    [discriminate|].
  rewrite bind_gets in E. cbv beta in E. apply Nat.ltb_lt in Hlt as Hlt'. rewrite Hlt' in E.
  destruct (25 <? dataset_length s - track)%nat.
  - rewrite bind_assoc_run, (bind_run _ _ _ _ _ (long_sleep_run s)), bind_gets in E.
    cbv beta in E.
    set (s0 := push_event _ s) in E.
    assert (Hs0 : dataset_length s0 = dataset_length s) by reflexivity. clearbody s0.
    destruct (pop_cases s0) as [[_ P]|[_ P]];
      [rewrite (bind_err _ _ _ _ _ P) in E; discriminate|rewrite (bind_run _ _ _ _ _ P) in E].
    rewrite bind_gets in E. cbv beta in E.
    set (s1 := mk_st _ _ _ _ _ _) in E.
    match type of E with
    | context [bind (qloop ?k ?q) _ s1] => destruct (qloop k q s1) as [[[]|e] s2] eqn:Q
    end;
      [rewrite (bind_run _ _ _ _ _ Q) in E|rewrite (bind_err _ _ _ _ _ Q) in E; discriminate].
    apply qloop_bound in Q as (q' & Hq' & Hb); [|reflexivity].
    simpl in Hb. rewrite Hs0 in Hb.
    destruct f as [|f]; [discriminate|].
    destruct (Nat.ltb_spec (dataset_length s2) max_articles) as [L|L].
    + destruct (IH _ _ L E) as (q'' & H1 & H2). eauto.
    + rewrite sloop_done in E by exact L. injection E as <-. exists q'. split; [exact Hq'|lia].
  - rewrite bind_ret in E.
    destruct (pop_cases s) as [[_ P]|[_ P]];
      [rewrite (bind_err _ _ _ _ _ P) in E; discriminate|rewrite (bind_run _ _ _ _ _ P) in E].
    rewrite bind_gets in E. cbv beta in E.
    set (s1 := mk_st _ _ _ _ _ _) in E.
    match type of E with
    | context [bind (qloop ?k ?q) _ s1] => destruct (qloop k q s1) as [[[]|e] s2] eqn:Q
    end;
      [rewrite (bind_run _ _ _ _ _ Q) in E|rewrite (bind_err _ _ _ _ _ Q) in E; discriminate].
    apply qloop_bound in Q as (q' & Hq' & Hb); [|reflexivity].
    simpl in Hb.
    destruct f as [|f]; [discriminate|].
    destruct (Nat.ltb_spec (dataset_length s2) max_articles) as [L|L].
    + destruct (IH _ _ L E) as (q'' & H1 & H2). eauto.
    + rewrite sloop_done in E by exact L. injection E as <-. exists q'. split; [exact Hq'|lia].
Qed.

(** C9: [_scrape] never looks at [max_articles]: a query whose URL list is
    made of distinct, new, valid articles gets all of them appended,
    whatever the count already is; so a crawl started below the target
    that ends normally stops at the target or above it, by less than the
    size of the URL list of the last query popped. *)
Theorem batch_processed_past_max_articles :
  (forall q s, urls_of q <> [] -> NoDup (urls_of q) ->
     (forall u, In u (urls_of q) -> u ∉ seen_urls s /\
        exists sp, http_get u = HttpPage sp /\ article_content sp <> "" /\ summary_div sp <> "") ->
     fst (scrape_q q s) = Ok true /\
     dataset_length (snd (scrape_q q s)) = (dataset_length s + length (urls_of q))%nat) /\
  (forall s s', (dataset_length s < max_articles)%nat -> run s = (Ok tt, s') ->
     exists q', hd_error (popped (log s')) = Some q' /\
       (max_articles <= dataset_length s' < max_articles + length (urls_of q'))%nat).
Proof.
  split.
  - intros q s Hne Hnd Hall. unfold _scrape. rewrite (bind_run _ _ _ _ _ (get_urls_run q s)).
    set (s1 := mk_st _ _ _ _ _ _).
    destruct (scrape_urls_all_new (urls_of q) s1 Hnd Hall) as [E1 E2].
    destruct (urls_of q) as [|u us] eqn:U; [contradiction|]. cbv beta iota.
    destruct (scrape_urls' (u :: us) s1) as [r s2] eqn:E. simpl in E1. subst r.
    rewrite (bind_run _ _ _ _ _ E). split; [reflexivity|]. simpl in E2 |- *. exact E2.
  - intros s s' Hlt E. unfold scrape in E. exact (sloop_bound _ _ _ _ Hlt E).
Qed.

(** C7 support: the pool and the popped queries together never change. *)
Lemma scrape_pool : stable pool_rel run.
Proof.
  destruct (loops_stable pool_rel) as [_ Hl].
  - intros q t. destruct (scrape_q_words q t) as [W P]. unfold pool_rel. rewrite W, P. reflexivity.
  - intros t. destruct (pop_cases t) as [[_ E]|[Hne E]]; rewrite E; [reflexivity|].
    unfold pool_rel; simpl.
    replace (removelast (words t) ++ List.last (words t) "" :: popped (log t))%list
      with ((removelast (words t) ++ [List.last (words t) ""]) ++ popped (log t))%list
      by (rewrite <- app_assoc; reflexivity).
    rewrite <- app_removelast_last by exact Hne. reflexivity.
  - intros t. reflexivity.
  - intros t. unfold scrape. apply Hl.
Qed.

(** C7: [pop] takes the last word and shrinks the pool by one, fails with
    [IndexError] on an empty pool; the words of the pool and the queries
    popped so far always make up the initial pool, so a pool without
    repeats never yields the same query twice; and an exhausted pool
    below the target count ends the crawl with [IndexError]. *)
Theorem query_pool_pops_last :
  (forall s, words s <> [] ->
     fst (pop s) = Ok (List.last (words s) "") /\
     words (snd (pop s)) = removelast (words s) /\
     length (words (snd (pop s))) = (length (words s) - 1)%nat) /\
  (forall s, words s = [] -> pop s = (Err IndexError, s)) /\
  (forall s, (words s ++ popped (log s))%list =
             (words (snd (run s)) ++ popped (log (snd (run s))))%list) /\
  (forall s, NoDup (words s) -> popped (log s) = [] ->
     NoDup (popped (log (snd (run s))))) /\
  (forall f track s, (dataset_length s < max_articles)%nat -> words s = [] ->
     fst (sloop (S f) track s) = Err IndexError) /\
  (forall k q s s1, scrape_q q s = (Ok false, s1) -> words s1 = [] ->
     fst (qloop (S k) q s) = Err IndexError).
Proof.
  split; [|split; [|split; [|split; [|split]]]].
  - intros s Hne. destruct (pop_cases s) as [[H _]|[_ E]]; [contradiction|].
    rewrite E. simpl. repeat split.
    pose proof (app_removelast_last "" Hne) as L.
    rewrite L at 2. rewrite length_app. simpl. lia.
  - intros s H. destruct (pop_cases s) as [[_ E]|[Hne _]]; [exact E|contradiction].
  - intros s. apply scrape_pool.
  - intros s Hnd Hp. pose proof (scrape_pool s) as E. unfold pool_rel in E.
    rewrite Hp, app_nil_r in E. rewrite E in Hnd. apply NoDup_app in Hnd as (_ & _ & H). exact H.
  - intros f track s Hlt Hw. cbn [scrape_loop]. rewrite bind_gets. cbv beta.
    apply Nat.ltb_lt in Hlt. rewrite Hlt.
    destruct (25 <? dataset_length s - track)%nat.
    + rewrite bind_assoc_run, (bind_run _ _ _ _ _ (long_sleep_run s)), bind_gets. cbv beta.
      destruct (pop_cases (push_event (ELongSleep (fst (long_range debug)) (snd (long_range debug))) s))
        as [[_ P]|[Hne _]]; [rewrite (bind_err _ _ _ _ _ P); reflexivity|].
      exfalso. apply Hne. exact Hw.
    + rewrite bind_ret.
      destruct (pop_cases s) as [[_ P]|[Hne _]]; [rewrite (bind_err _ _ _ _ _ P); reflexivity|].
      contradiction.
  - intros k q s s1 E Hw. cbn [query_loop]. rewrite (bind_run _ _ _ _ _ E).
    rewrite (bind_run _ _ _ _ _ (long_sleep_run s1)).
    destruct (pop_cases (push_event (ELongSleep (fst (long_range debug)) (snd (long_range debug))) s1))
      as [[_ P]|[Hne _]]; [rewrite (bind_err _ _ _ _ _ P); reflexivity|].
    exfalso. apply Hne. exact Hw.
Qed.

(** C5 (amended): no long delay happens while a query's URL list is being
    processed, and a query with URLs ends the inner loop at once, so
    without empty queries a long delay can only come from the check at
    the top of the outer loop: one long delay, then the pop of the next
    query, exactly when [dataset_length - track > 25], after which
    [track] is reset; otherwise the next query is popped at once. *)
Theorem batch_cooldown_between_queries :
  (forall q s, exists l, log (snd (scrape_q q s)) = (l ++ log s)%list /\
                 forallb (fun e => negb (is_long_sleep e)) l = true) /\
  (forall k q s s1, scrape_q q s = (Ok true, s1) -> qloop (S k) q s = (Ok tt, s1)) /\
  (forall f track s w q,
     (dataset_length s < max_articles)%nat -> words s = (w ++ [q])%list ->
     (25 < dataset_length s - track)%nat ->
     sloop (S f) track s =
     (qloop (S (length w)) q ;; sloop f (dataset_length s))
       (mk_st (dataset_length s) (seen_urls s) w (dataset_file s) (cookie_button_clicked s)
          (EPop q :: ELongSleep (fst (long_range debug)) (snd (long_range debug)) :: log s))) /\
  (forall f track s w q,
     (dataset_length s < max_articles)%nat -> words s = (w ++ [q])%list ->
     (dataset_length s - track <= 25)%nat ->
     sloop (S f) track s =
     (qloop (S (length w)) q ;; sloop f track)
       (mk_st (dataset_length s) (seen_urls s) w (dataset_file s) (cookie_button_clicked s)
          (EPop q :: log s))).
Proof.
  split; [|split; [|split]].
  - intros q s. apply scrape_q_no_long.
  - intros k q s s1 E. cbn [query_loop]. rewrite (bind_run _ _ _ _ _ E). reflexivity.
  - intros f track s w q Hn Hw Ht.
    simpl scrape_loop. rewrite bind_gets. cbv beta.
    apply Nat.ltb_lt in Hn. apply Nat.ltb_lt in Ht. rewrite Hn, Ht.
    rewrite bind_assoc_run, (bind_run _ _ _ _ _ (long_sleep_run s)), bind_gets. cbv beta.
    rewrite (bind_run _ _ _ _ _
               (pop_run (push_event (ELongSleep (fst (long_range debug))
                                                (snd (long_range debug))) s) w q Hw)).
    rewrite bind_gets. cbv beta. reflexivity.
  - intros f track s w q Hn Hw Ht.
    simpl scrape_loop. rewrite bind_gets. cbv beta.
    apply Nat.ltb_lt in Hn. apply Nat.ltb_ge in Ht. rewrite Hn, Ht, bind_ret.
    rewrite (bind_run _ _ _ _ _ (pop_run _ w q Hw)), bind_gets. cbv beta. reflexivity.
Qed.

(** C6 (amended): an error status on an article page raises [HTTPError]
    out of [_get_article_data]; neither [_scrape] nor the two loops catch
    it, so the crawl ends with it at once: no long delay and no other
    query.  Records already appended stay in the file. *)
Theorem http_error_ends_crawl :
  (forall u s c, u ∉ seen_urls s -> http_get u = HttpErrorStatus c ->
     scrape_url' u s =
     (Err (HTTPError u),
      push_event (EArticleFetch u)
        (push_event (EShortSleep (fst (short_range debug)) (snd (short_range debug))) s))) /\
  (forall k q s e s1, scrape_q q s = (Err e, s1) -> qloop (S k) q s = (Err e, s1)) /\
  (forall s w q u rest c,
     (dataset_length s < max_articles)%nat -> words s = (w ++ [q])%list ->
     urls_of q = u :: rest -> u ∉ seen_urls s -> http_get u = HttpErrorStatus c ->
     run s =
     (Err (HTTPError u),
      mk_st (dataset_length s) (seen_urls s) w (dataset_file s) true
        (EArticleFetch u
         :: EShortSleep (fst (short_range debug)) (snd (short_range debug))
         :: EShortSleep (fst (short_range debug)) (snd (short_range debug))
         :: ESearchFetch (base_url q) :: EPop q :: log s))).
Proof.
  assert (Hurl : forall u s c, u ∉ seen_urls s -> http_get u = HttpErrorStatus c ->
     scrape_url' u s =
     (Err (HTTPError u),
      push_event (EArticleFetch u)
        (push_event (EShortSleep (fst (short_range debug)) (snd (short_range debug))) s))).
  { intros u s c Hs Hg. unfold scrape_url; unfold_crawler. unfold bind, gets, modify, raise; simpl.
    rewrite bool_decide_eq_false_2 by exact Hs. simpl. rewrite Hg. reflexivity. }
  split; [exact Hurl|split].
  - intros k q s e s1 E. cbn [query_loop]. rewrite (bind_err _ _ _ _ _ E). reflexivity.
  - intros s w q u rest c Hlt Hw Hq Hs Hg.
    unfold scrape. rewrite Hw, length_app, Nat.add_comm. cbn [length plus scrape_loop].
    rewrite bind_gets. cbv beta. apply Nat.ltb_lt in Hlt. rewrite Hlt.
    replace (25 <? dataset_length s - dataset_length s)%nat with false
      by (rewrite Nat.sub_diag; reflexivity).
    rewrite bind_ret.
    rewrite (bind_run _ _ _ _ _ (pop_run s w q Hw)), bind_gets. cbv beta.
    cbn [query_loop]. rewrite ?bind_assoc_run.
    unfold _scrape at 1. rewrite ?bind_assoc_run, (bind_run _ _ _ _ _ (get_urls_run q _)).
    rewrite Hq. cbv beta iota. cbn [scrape_urls]. rewrite !bind_assoc_run.
    erewrite bind_err; [|apply (Hurl u _ c); [exact Hs|exact Hg]].
    reflexivity.
Qed.

(** C8 (amended): every article fetch is immediately preceded by a short
    delay; a search page is loaded first and the short delay follows the
    load; the range is the debug one or the normal one. *)
Theorem short_sleep_placement :
  (forall q s, log (snd (get_urls q s)) =
     EShortSleep (fst (short_range debug)) (snd (short_range debug))
       :: ESearchFetch (base_url q) :: log s) /\
  (forall u s, log (snd (get_data u s)) =
     EArticleFetch u :: EShortSleep (fst (short_range debug)) (snd (short_range debug)) :: log s) /\
  short_range debug = (if debug then (100, 150) else (30000, 60000))%Z.
Proof.
  split; [|split].
  - intros q s. rewrite get_urls_run. reflexivity.
  - intros u s. unfold_crawler. unfold bind, modify; simpl.
    destruct (http_get u) as [c|sp]; simpl; [reflexivity|].
    destruct (_ || _); reflexivity.
  - reflexivity.
Qed.

(** C10: a page is rejected only for an empty text or summary, never for
    its title: a new article without title is appended with title "";
    only the export drops samples whose trimmed title is empty. *)
Theorem untitled_sample_persisted :
  (forall u s sp, http_get u = HttpPage sp ->
     fst (get_data u s) =
     Ok (if String.eqb (article_content sp) "" || String.eqb (summary_div sp) "" then None
         else Some (mk_sample u (h1_title sp) (summary_div sp) (article_content sp)))) /\
  (forall u s sp, u ∉ seen_urls s -> http_get u = HttpPage sp -> h1_title sp = "" ->
     article_content sp <> "" -> summary_div sp <> "" ->
     dataset_file (snd (scrape_url' u s)) =
     Some (file_records (dataset_file s) ++ [mk_sample u "" (summary_div sp) (article_content sp)])%list) /\
  (forall xs x, In x (DatasetBuilder._ignore_duplicates xs) -> title_key x <> "").
Proof.
  split; [|split].
  - intros u s sp Hg. unfold_crawler. unfold bind, modify; simpl. rewrite Hg.
    unfold _get_text, _get_summary, _get_title. destruct (_ || _); reflexivity.
  - intros u s sp Hs Hg Ht Hc Hm. rewrite (scrape_url_new_valid u s sp Hs Hg Hc Hm), Ht.
    reflexivity.
  - intros xs. unfold DatasetBuilder._ignore_duplicates. generalize (∅ : gset string).
    induction xs as [|y xs IH]; intros seen x Hx; simpl in Hx; [contradiction|].
    destruct (negb _ && negb _) eqn:B.
    + destruct Hx as [<-|Hx]; [|eapply IH; exact Hx].
      apply andb_true_iff in B as [B _]. apply negb_true_iff, String.eqb_neq in B. exact B.
    + eapply IH. exact Hx.
Qed.

(** ** Further properties of the crawler *)

Lemma get_data_log u s :
  log (snd (get_data u s)) =
  EArticleFetch u :: EShortSleep (fst (short_range debug)) (snd (short_range debug)) :: log s.
Proof.
  unfold_crawler. unfold bind, modify; simpl.
  destruct (http_get u) as [c|sp]; simpl; [reflexivity|].
  destruct (_ || _); reflexivity.
Qed.

Lemma get_data_valid u s x : fst (get_data u s) = Ok (Some x) -> valid_record x.
Proof.
  unfold_crawler. unfold bind, modify; simpl.
  destruct (http_get u) as [c|sp]; simpl; [discriminate|].
  unfold _get_text, _get_summary, _get_title.
  destruct (article_content sp =? "") eqn:A; simpl; [discriminate|].
  destruct (summary_div sp =? "") eqn:B; simpl; [discriminate|].
  intros H. injection H as <-. split; simpl; apply String.eqb_neq; assumption.
Qed.

Lemma scrape_url_seen u s : u ∈ seen_urls s -> scrape_url' u s = (Ok tt, s).
Proof.
  intros H. unfold scrape_url, bind, gets; simpl.
  rewrite bool_decide_eq_true_2 by exact H. reflexivity.
Qed.

Lemma scrape_url_invalid u s sp :
  u ∉ seen_urls s -> http_get u = HttpPage sp ->
  (article_content sp = "" \/ summary_div sp = "") ->
  scrape_url' u s =
  (Ok tt, push_event (EArticleFetch u)
            (push_event (EShortSleep (fst (short_range debug)) (snd (short_range debug))) s)).
Proof.
  intros Hs Hg Hx. unfold scrape_url; unfold_crawler. unfold bind, gets, modify, ret; simpl.
  rewrite bool_decide_eq_false_2 by exact Hs. simpl. rewrite Hg.
  unfold _get_text, _get_summary, _get_title.
  destruct Hx as [E|E]; rewrite E; simpl; [|rewrite orb_true_r]; reflexivity.
Qed.

Lemma sleeps_paired_push2 e1 e2 s :
  count_events is_short_sleep [e1; e2] = count_events is_page_fetch [e1; e2] ->
  sleeps_paired s (push_event e1 (push_event e2 s)).
Proof. intros C. exists [e1; e2]. split; [reflexivity|exact C]. Qed.

Lemma scrape_url_paired u : stable sleeps_paired (scrape_url' u).
Proof.
  unfold scrape_url.
  apply stable_bind; [typeclasses eauto|apply stable_gets; typeclasses eauto|]. intros seen.
  destruct (bool_decide _); [apply stable_ret; typeclasses eauto|].
  apply stable_bind; [typeclasses eauto| |].
  - intros s. exists [EArticleFetch u; EShortSleep (fst (short_range debug)) (snd (short_range debug))].
    split; [apply get_data_log|reflexivity].
  - intros [x|]; [|apply stable_ret; typeclasses eauto].
    intros s. exists [EAppend x]. split; reflexivity.
Qed.

Lemma run_paired : stable sleeps_paired run.
Proof.
  destruct (loops_stable sleeps_paired) as [_ Hl].
  - intros q. apply scrape_q_stable; try typeclasses eauto; [|apply scrape_url_paired].
    intros s. rewrite get_urls_run.
    exists [EShortSleep (fst (short_range debug)) (snd (short_range debug)); ESearchFetch (base_url q)].
    split; reflexivity.
  - intros s. destruct (pop_cases s) as [[_ E]|[_ E]]; rewrite E; [reflexivity|].
    exists [EPop (List.last (words s) "")]. split; reflexivity.
  - intros s. exists [ELongSleep (fst (long_range debug)) (snd (long_range debug))].
    split; reflexivity.
  - intros s. unfold scrape. apply Hl.
Qed.

(** Every page load of a crawl, search page or article page, comes with
    one short sleep: the events a run adds hold as many of each. *)
Theorem crawl_sleeps_match_page_loads s :
  exists l, log (snd (run s)) = (l ++ log s)%list /\
    count_events is_short_sleep l = count_events is_page_fetch l.
Proof. apply run_paired. Qed.

Lemma scrape_url_valid u : stable valid_appends (scrape_url' u).
Proof.
  intros s. unfold scrape_url, bind, gets; simpl.
  destruct (bool_decide (u ∈ seen_urls s)); simpl; [reflexivity|].
  destruct (get_data_frame u s) as (_ & _ & Hf & _).
  pose proof (get_data_valid u s) as Hv.
  destruct (get_data u s) as [[[x|]|e] s1]; simpl in *.
  - exists [x]. unfold _save_sample, modify, append_record; simpl. rewrite Hf.
    split; [reflexivity|]. constructor; [apply Hv; reflexivity|constructor].
  - exists []. rewrite Hf, app_nil_r. split; [reflexivity|constructor].
  - exists []. rewrite Hf, app_nil_r. split; [reflexivity|constructor].
Qed.

(** Every record a crawl appends has a non-empty text and a non-empty
    summary; the records already in the file stay in place, also when
    the crawl ends with an exception. *)
Theorem crawl_appends_only_valid_records s :
  exists l, file_records (dataset_file (snd (run s))) =
              (file_records (dataset_file s) ++ l)%list /\
    Forall (fun x => text x <> "" /\ summary x <> "") l.
Proof.
  destruct (loops_stable valid_appends) as [_ Hl].
  - intros q. apply scrape_q_stable; try typeclasses eauto; [|apply scrape_url_valid].
    intros s'. rewrite get_urls_run. exists []. rewrite app_nil_r. split; [reflexivity|constructor].
  - intros s'. destruct (pop_cases s') as [[_ E]|[_ E]]; rewrite E; [reflexivity|].
    exists []. rewrite app_nil_r. split; [reflexivity|constructor].
  - intros s'. exists []. rewrite app_nil_r. split; [reflexivity|constructor].
  - unfold scrape. apply Hl.
Qed.

Lemma scrape_url_http_error v s c :
  v ∉ seen_urls s -> http_get v = HttpErrorStatus c ->
  fst (scrape_url' v s) = Err (HTTPError v).
Proof.
  intros Hv Gv. unfold scrape_url; unfold_crawler. unfold bind, gets, modify, raise; simpl.
  rewrite bool_decide_eq_false_2 by exact Hv. simpl. rewrite Gv. reflexivity.
Qed.

Lemma count_events_app p l1 l2 :
  count_events p (l1 ++ l2) = (count_events p l1 + count_events p l2)%nat.
Proof. unfold count_events. rewrite filter_app, length_app. reflexivity. Qed.

Lemma count_events_nil p : count_events p [] = 0%nat.
Proof. reflexivity. Qed.

Lemma count_events_cons p e l :
  count_events p (e :: l) = ((if p e then 1 else 0) + count_events p l)%nat.
Proof.
  unfold count_events. rewrite filter_cons.
  case_decide as H; destruct (p e) eqn:P; simpl in *; try reflexivity; try contradiction.
Qed.

(** The [for article_url in article_urls] loop of [_scrape], when it
    ends normally: a link already seen is never fetched; a new link
    whose page has no text or no summary is fetched at each of its
    occurrences; a new link whose page is valid is fetched once. *)
Lemma link_loop_fetch_count u sp us s :
  http_get u = HttpPage sp ->
  is_ok (fst (scrape_urls' us s)) = true ->
  exists l, log (snd (scrape_urls' us s)) = (l ++ log s)%list /\
    count_events (is_fetch_of u) l =
      (if bool_decide (u ∈ seen_urls s) then 0%nat
       else if (article_content sp =? "") || (summary_div sp =? "") then occurrences u us
       else Nat.min 1 (occurrences u us)).
Proof.
  intros Hg. revert s. induction us as [|v us IH]; intros s Hok; cbn [scrape_urls] in *.
  - exists []. split; [reflexivity|]. unfold occurrences; simpl.
    destruct (bool_decide _); [reflexivity|]. destruct (_ || _); reflexivity.
  - destruct (decide (v ∈ seen_urls s)) as [Hv|Hv].
    + rewrite (bind_run _ _ _ _ _ (scrape_url_seen v s Hv)) in *.
      destruct (IH s Hok) as (l & E & C). exists l. split; [exact E|]. rewrite C.
      unfold occurrences; simpl. destruct (String.eqb_spec v u) as [->|Hne]; [|reflexivity].
      rewrite bool_decide_eq_true_2 by exact Hv. reflexivity.
    + destruct (http_get v) as [c|spv] eqn:Gv.
      * pose proof (scrape_url_http_error v s c Hv Gv) as R.
        destruct (scrape_url' v s) as [r s1] eqn:R1. cbn [fst] in R. subst r.
        rewrite (bind_err _ _ _ _ _ R1) in Hok. discriminate.
      * assert (Same : v = u -> spv = sp) by (intros ->; congruence).
        destruct ((article_content spv =? "") || (summary_div spv =? "")) eqn:B.
        -- assert (Hx : article_content spv = "" \/ summary_div spv = "").
           { apply orb_true_iff in B as [B|B]; apply String.eqb_eq in B; auto. }
           rewrite (bind_run _ _ _ _ _ (scrape_url_invalid v s spv Hv Gv Hx)) in *.
           destruct (IH _ Hok) as (l & E & C). cbn [push_event seen_urls] in C.
           exists (l ++ [EArticleFetch v; EShortSleep (fst (short_range debug)) (snd (short_range debug))])%list.
           split; [rewrite E, <- app_assoc; reflexivity|].
           rewrite count_events_app, C, !count_events_cons, count_events_nil. unfold occurrences. simpl.
           destruct (String.eqb_spec v u) as [<-|Hne]; simpl.
           ++ rewrite <- (Same eq_refl), B, bool_decide_eq_false_2 by exact Hv. lia.
           ++ destruct (bool_decide _), (_ || _); lia.
        -- assert (Hc : article_content spv <> "" /\ summary_div spv <> "").
           { apply orb_false_iff in B as [B1 B2]. split; apply String.eqb_neq; assumption. }
           rewrite (bind_run _ _ _ _ _
                      (scrape_url_new_valid v s spv Hv Gv (proj1 Hc) (proj2 Hc))) in *.
           destruct (IH _ Hok) as (l & E & C). cbn [push_event append_record seen_urls] in C.
           exists (l ++ [EAppend (mk_sample v (h1_title spv) (summary_div spv) (article_content spv));
                         EArticleFetch v;
                         EShortSleep (fst (short_range debug)) (snd (short_range debug))])%list.
           split; [rewrite E, <- app_assoc; reflexivity|].
           rewrite count_events_app, C, !count_events_cons, count_events_nil. unfold occurrences. simpl.
           destruct (String.eqb_spec v u) as [<-|Hne]; simpl.
           ++ rewrite bool_decide_eq_true_2 by set_solver.
              rewrite <- (Same eq_refl), B, bool_decide_eq_false_2 by exact Hv. lia.
           ++ rewrite (bool_decide_ext (u ∈ {[v]} ∪ seen_urls s) (u ∈ seen_urls s)) by set_solver.
              destruct (bool_decide _), (_ || _); lia.
Qed.

(** A link listed several times on a search page, anywhere on it: if it
    was seen before the query it is never fetched; if it is new and its
    page has no text or no summary, it is never marked seen and is
    fetched once per occurrence; if it is new and its page is valid, it
    is fetched once and its later occurrences are skipped.  (When
    [_scrape] returns, i.e. no article fetch raised.) *)
Theorem repeated_link_fetch_count q u sp s :
  http_get u = HttpPage sp ->
  is_ok (fst (_scrape search_links link_domain http_get debug q s)) = true ->
  exists l,
    log (snd (_scrape search_links link_domain http_get debug q s)) = (l ++ log s)%list /\
    count_events (is_fetch_of u) l =
      (if bool_decide (u ∈ seen_urls s) then 0%nat
       else if (article_content sp =? "") || (summary_div sp =? "")
            then occurrences u (urls_of q)
            else Nat.min 1 (occurrences u (urls_of q))).
Proof.
  intros Hg Hok. unfold _scrape in *. rewrite (bind_run _ _ _ _ _ (get_urls_run q s)) in *.
  set (s1 := mk_st _ _ _ _ _ _) in *.
  assert (S1 : seen_urls s1 = seen_urls s) by reflexivity.
  assert (L1 : log s1 = ([EShortSleep (fst (short_range debug)) (snd (short_range debug));
                          ESearchFetch (base_url q)] ++ log s)%list) by reflexivity.
  clearbody s1.
  destruct (urls_of q) as [|v vs] eqn:U; cbv beta iota in *.
  - eexists. split; [exact L1|]. unfold occurrences; simpl.
    destruct (bool_decide _); [reflexivity|]. destruct (_ || _); reflexivity.
  - destruct (scrape_urls' (v :: vs) s1) as [r s2] eqn:R.
    destruct r as [[]|e]; [|rewrite (bind_err _ _ _ _ _ R) in Hok; discriminate].
    rewrite (bind_run _ _ _ _ _ R). unfold ret; cbn [snd].
    destruct (link_loop_fetch_count u sp (v :: vs) s1 Hg) as (l & E & C); [rewrite R; reflexivity|].
    rewrite R in E. cbn [snd] in E. rewrite <- U, S1 in C. rewrite <- U.
    eexists. split; [rewrite E, L1, app_assoc; reflexivity|].
    rewrite count_events_app, C, !count_events_cons, count_events_nil. simpl. lia.
Qed.

Lemma scrape_urls_all_seen us s :
  Forall (fun u => u ∈ seen_urls s) us -> scrape_urls' us s = (Ok tt, s).
Proof.
  intros H. induction H as [|u us Hu _ IH]; cbn [scrape_urls]; [reflexivity|].
  rewrite (bind_run _ _ _ _ _ (scrape_url_seen u s Hu)). exact IH.
Qed.

(** A query whose search page lists only links already seen counts as
    successful: only the search page is loaded, nothing is fetched or
    appended, and the inner loop ends with no long sleep and no pop. *)
Theorem query_of_seen_links_succeeds k q s :
  urls_of q <> [] -> Forall (fun u => u ∈ seen_urls s) (urls_of q) ->
  let s1 := mk_st (dataset_length s) (seen_urls s) (words s) (dataset_file s) true
              (EShortSleep (fst (short_range debug)) (snd (short_range debug))
                 :: ESearchFetch (base_url q) :: log s) in
  scrape_q q s = (Ok true, s1) /\ qloop (S k) q s = (Ok tt, s1).
Proof.
  intros Hne Hall s1.
  assert (E : scrape_q q s = (Ok true, s1)).
  { unfold _scrape. rewrite (bind_run _ _ _ _ _ (get_urls_run q s)).
    destruct (urls_of q) as [|u us] eqn:U; [contradiction|]. cbv beta iota.
    rewrite (bind_run _ _ _ _ _ (scrape_urls_all_seen (u :: us) s1 Hall)). reflexivity. }
  split; [exact E|]. cbn [query_loop]. rewrite (bind_run _ _ _ _ _ E). reflexivity.
Qed.

(** A query whose search page lists no link makes [_scrape] return
    false after loading the page; the inner loop then sleeps long and
    pops the next query. *)
Theorem empty_query_long_sleep_then_next :
  (forall q s, urls_of q = [] ->
     scrape_q q s =
     (Ok false, mk_st (dataset_length s) (seen_urls s) (words s) (dataset_file s) true
                  (EShortSleep (fst (short_range debug)) (snd (short_range debug))
                     :: ESearchFetch (base_url q) :: log s))) /\
  (forall k q s s1 w q', scrape_q q s = (Ok false, s1) -> words s1 = (w ++ [q'])%list ->
     qloop (S k) q s =
     qloop k q' (mk_st (dataset_length s1) (seen_urls s1) w (dataset_file s1)
                   (cookie_button_clicked s1)
                   (EPop q' :: ELongSleep (fst (long_range debug)) (snd (long_range debug))
                      :: log s1))).
Proof.
  split.
  - intros q s U. unfold _scrape. rewrite (bind_run _ _ _ _ _ (get_urls_run q s)).
    rewrite U. reflexivity.
  - intros k q s s1 w q' E Hw. cbn [query_loop]. rewrite (bind_run _ _ _ _ _ E). cbv beta iota.
    rewrite (bind_run _ _ _ _ _ (long_sleep_run s1)).
    rewrite (bind_run _ _ _ _ _
               (pop_run (push_event (ELongSleep (fst (long_range debug))
                                                (snd (long_range debug))) s1) w q' Hw)).
    reflexivity.
Qed.

Lemma scrape_urls_order us s :
  NoDup us ->
  (forall u, In u us -> u ∉ seen_urls s /\
     exists sp, http_get u = HttpPage sp /\ article_content sp <> "" /\ summary_div sp <> "") ->
  fst (scrape_urls' us s) = Ok tt /\
  exists l, Forall2 (fun u x => exists sp, http_get u = HttpPage sp /\
                       x = mk_sample u (h1_title sp) (summary_div sp) (article_content sp)) us l /\
    file_records (dataset_file (snd (scrape_urls' us s))) = (file_records (dataset_file s) ++ l)%list.
Proof.
  revert s. induction us as [|u us IH]; intros s Hnd Hall; cbn [scrape_urls].
  - split; [reflexivity|]. exists []. split; [constructor|]. rewrite app_nil_r. reflexivity.
  - apply NoDup_cons in Hnd as [Hu Hnd].
    destruct (Hall u (or_introl eq_refl)) as [Hs (sp & Hg & Hc & Hm)].
    rewrite (bind_run _ _ _ _ _ (scrape_url_new_valid u s sp Hs Hg Hc Hm)).
    destruct (IH (append_record (mk_sample u (h1_title sp) (summary_div sp) (article_content sp))
                   (push_event (EArticleFetch u)
                      (push_event (EShortSleep (fst (short_range debug)) (snd (short_range debug))) s))))
      as [E1 (l & F & E2)]; [exact Hnd| |].
    + intros v Hv. destruct (Hall v (or_intror Hv)) as [Hvs Hvp]. split; [|exact Hvp].
      simpl. rewrite elem_of_union, elem_of_singleton.
      intros [->|H]; [apply Hu, list_elem_of_In, Hv|apply Hvs, H].
    + split; [exact E1|]. eexists. split; [constructor; [eexists; split; [exact Hg|reflexivity]|exact F]|].
      rewrite E2. simpl. rewrite <- app_assoc. reflexivity.
Qed.

(** A search page whose links are distinct, new and valid: [_scrape]
    succeeds and appends one record per link, in the order of the page,
    each built from the page fetched at that link. *)
Theorem scrape_appends_in_page_order q s :
  urls_of q <> [] -> NoDup (urls_of q) ->
  (forall u, In u (urls_of q) -> u ∉ seen_urls s /\
     exists sp, http_get u = HttpPage sp /\ article_content sp <> "" /\ summary_div sp <> "") ->
  fst (scrape_q q s) = Ok true /\
  exists l, Forall2 (fun u x => exists sp, http_get u = HttpPage sp /\
                       x = mk_sample u (h1_title sp) (summary_div sp) (article_content sp))
              (urls_of q) l /\
    file_records (dataset_file (snd (scrape_q q s))) = (file_records (dataset_file s) ++ l)%list.
Proof.
  intros Hne Hnd Hall. unfold _scrape. rewrite (bind_run _ _ _ _ _ (get_urls_run q s)).
  set (s1 := mk_st _ _ _ _ _ _).
  assert (F1 : dataset_file s1 = dataset_file s) by reflexivity.
  assert (S1 : seen_urls s1 = seen_urls s) by reflexivity.
  clearbody s1.
  destruct (urls_of q) as [|u us] eqn:U; [contradiction|]. cbv beta iota.
  destruct (scrape_urls_order (u :: us) s1 Hnd) as [E (l & F & E2)].
  { intros v Hv. rewrite S1. apply Hall, Hv. }
  destruct (scrape_urls' (u :: us) s1) as [r s2] eqn:R. cbn [fst snd] in E, E2. subst r.
  rewrite (bind_run _ _ _ _ _ R). split; [reflexivity|]. exists l. split; [exact F|].
  unfold ret. cbn [snd]. rewrite E2, F1. reflexivity.
Qed.

(** Over any crawl the cookie flag ends as it started, or set if the
    crawl loaded a search page; a fresh crawl (flag false after
    [__init__]) ends with the flag set exactly when it loaded a search
    page.  Nothing clears the flag. *)
Theorem cookie_flag_set_once :
  (forall s,
     let s' := snd (scrape search_links link_domain http_get max_articles debug s) in
     exists l, log s' = (l ++ log s)%list /\
       cookie_button_clicked s' = cookie_button_clicked s || existsb is_search_fetch l) /\
  (forall f w,
     let s' := snd (scrape search_links link_domain http_get max_articles debug (init f w)) in
     cookie_button_clicked s' = existsb is_search_fetch (log s')).
Proof.
  assert (H : forall s, cookie_rel s (snd (run s))).
  { destruct (loops_stable cookie_rel) as [_ Hl].
    - intros q. apply scrape_q_stable; try typeclasses eauto.
      + intros s. rewrite get_urls_run.
        exists [EShortSleep (fst (short_range debug)) (snd (short_range debug)); ESearchFetch (base_url q)].
        split; [reflexivity|]. simpl. rewrite orb_true_r. reflexivity.
      + intros u. unfold scrape_url; unfold_crawler. solve_stable;
          (eexists [_]; split; [reflexivity|simpl; rewrite orb_false_r; reflexivity]).
    - intros s. destruct (pop_cases s) as [[_ E]|[_ E]]; rewrite E; [reflexivity|].
      exists [EPop (List.last (words s) "")]. split; [reflexivity|]. simpl.
      rewrite orb_false_r. reflexivity.
    - intros s. exists [ELongSleep (fst (long_range debug)) (snd (long_range debug))].
      split; [reflexivity|]. simpl. rewrite orb_false_r. reflexivity.
    - intros s. unfold scrape. apply Hl. }
  split; [exact H|].
  intros f w. cbv zeta. destruct (H (init f w)) as [l [E C]].
  rewrite C, E. simpl. rewrite app_nil_r. reflexivity.
Qed.

(** A crawl resumed from a file that already holds [max_articles]
    records stops at once: no query popped, no page loaded, no state
    change. *)
Theorem resumed_full_store_does_nothing recs w :
  (max_articles <= length recs)%nat ->
  run (init (Some recs) w) = (Ok tt, init (Some recs) w).
Proof.
  intros H. unfold scrape. apply sloop_done.
  unfold init, _get_dataset_info. cbn [dataset_length]. rewrite dataset_info_fold. simpl. exact H.
Qed.

End Facts.



(** C1: recovery at [Scraper.__init__]: an absent file gives count 0 and
    no seen URL; a file of records gives their number and their URL set. *)
Theorem recovery_rebuilds_crawl_state :
  (forall w, dataset_length (init None w) = 0%nat /\ seen_urls (init None w) = ∅) /\
  (forall (recs : list sample) w,
     dataset_length (init (Some recs) w) = length recs /\
     seen_urls (init (Some recs) w) = list_to_set (map url recs)).
Proof.
  split.
  - intros w. split; reflexivity.
  - intros recs w. unfold init; simpl. rewrite dataset_info_fold. simpl.
    split; [reflexivity|set_solver].
Qed.

Lemma forallb_false_exists {A} (f : A -> bool) (l : list A) :
  forallb f l = false -> exists y, In y l /\ f y = false.
Proof.
  induction l as [|a l IH]; simpl; [discriminate|].
  destruct (f a) eqn:Fa; simpl; [intros H; destruct (IH H) as [y [Hy Fy]]; eauto|eauto].
Qed.

(** [seen_titles] holds exactly the non-empty trimmed titles met so far. *)
Lemma ignore_loop_spec (xs earlier : list sample) (seen : gset string) :
  (forall t, t <> "" -> (t ∈ seen <-> exists y, In y earlier /\ title_key y = t)) ->
  DatasetBuilder.ignore_loop seen xs = title_dedup_from earlier xs.
Proof.
  revert earlier seen. induction xs as [|x xs IH]; intros earlier seen Hseen; [reflexivity|].
  simpl. fold (title_key x).
  assert (Hfa : forallb (fun y => negb (String.eqb (title_key y) (title_key x))) earlier = true
                <-> ~ exists y, In y earlier /\ title_key y = title_key x).
  { rewrite forallb_forall. split.
    - intros H [y [Hy Ey]]. specialize (H y Hy). rewrite Ey, String.eqb_refl in H. discriminate.
    - intros H y Hy. destruct (String.eqb_spec (title_key y) (title_key x)); [|reflexivity].
      exfalso. eauto. }
  destruct (String.eqb_spec (title_key x) "") as [E|E]; simpl.
  - apply IH. intros t Ht. rewrite Hseen by exact Ht. split.
    + intros [y [Hy Ey]]. exists y. split; [apply in_or_app; left|]; assumption.
    + intros [y [Hy Ey]]. apply in_app_or in Hy as [Hy|[<-|[]]]; [eauto|congruence].
  - destruct (bool_decide (title_key x ∈ seen)) eqn:B; simpl.
    + apply bool_decide_eq_true in B. apply Hseen in B as Hex; [|exact E].
      destruct (forallb _ earlier) eqn:F; [exfalso; exact (proj1 Hfa eq_refl Hex)|]. simpl.
      apply IH. intros t Ht. rewrite Hseen by exact Ht. split.
      * intros [y [Hy Ey]]. exists y. split; [apply in_or_app; left|]; assumption.
      * intros [y [Hy Ey]]. apply in_app_or in Hy as [Hy|[<-|[]]]; [eauto|]. subst t. exact Hex.
    + apply bool_decide_eq_false in B.
      destruct (forallb _ earlier) eqn:F.
      * simpl. f_equal. apply IH. intros t Ht. rewrite elem_of_union, elem_of_singleton.
        rewrite Hseen by exact Ht. split.
        -- intros [->|[y [Hy Ey]]]; [exists x; split; [apply in_or_app; right; left|]; reflexivity|].
           exists y. split; [apply in_or_app; left|]; assumption.
        -- intros [y [Hy Ey]]. apply in_app_or in Hy as [Hy|[<-|[]]]; [right; eauto|left; auto].
      * exfalso. apply B, Hseen; [exact E|].
        apply forallb_false_exists in F as [y [Hy Fy]].
        exists y. split; [exact Hy|]. apply negb_false_iff, String.eqb_eq in Fy. exact Fy.
Qed.

(** C3: [_ignore_duplicates] keeps exactly the samples whose trimmed title
    is non-empty and not the trimmed title of an earlier sample, in
    storage order; on [a:"X"; b:"X"; c:""; d:"Y"] it keeps [a; d]. *)
Theorem ignore_duplicates_keeps_first_titles :
  (forall xs, DatasetBuilder._ignore_duplicates xs = title_dedup_spec xs) /\
  DatasetBuilder._ignore_duplicates
    [mk_sample "a" "X" "" ""; mk_sample "b" "X" "" "";
     mk_sample "c" "" "" ""; mk_sample "d" "Y" "" ""]
  = [mk_sample "a" "X" "" ""; mk_sample "d" "Y" "" ""].
Proof.
  split.
  - intros xs. apply ignore_loop_spec. intros t Ht. split.
    + intros H. apply elem_of_empty in H. contradiction.
    + intros [y [[] _]].
  - vm_compute. reflexivity.
Qed.

(** ** Recovery and export, further properties *)

Lemma size_list_to_set_le (l : list string) :
  (size (list_to_set l : gset string) <= length l)%nat.
Proof.
  induction l as [|x l IH]; [vm_compute; lia|simpl].
  rewrite size_union_alt, size_singleton.
  assert (H : (list_to_set l ∖ {[x]} : gset string) ⊆ list_to_set l) by set_solver.
  apply subseteq_size in H. lia.
Qed.

Lemma size_list_to_set_nodup (l : list string) :
  size (list_to_set l : gset string) = length l -> NoDup l.
Proof.
  induction l as [|x l IH]; simpl; intros H; [constructor|].
  destruct (decide (x ∈ (list_to_set l : gset string))) as [Hx|Hx].
  - exfalso. assert (E : {[x]} ∪ (list_to_set l : gset string) = list_to_set l) by set_solver.
    rewrite E in H. pose proof (size_list_to_set_le l). lia.
  - rewrite size_union, size_singleton in H by set_solver. constructor.
    + intros Hin. apply Hx, elem_of_list_to_set, Hin.
    + apply IH. lia.
Qed.

(** Recovery counts the lines of the file, not the distinct URLs: the
    seen set is never larger than the count, and is as large exactly
    when no URL is repeated in the file. *)
Theorem recovery_counts_lines recs w :
  (size (seen_urls (init (Some recs) w)) <= dataset_length (init (Some recs) w))%nat /\
  (size (seen_urls (init (Some recs) w)) = dataset_length (init (Some recs) w) <->
   NoDup (map url recs)).
Proof.
  unfold init, _get_dataset_info. cbn [seen_urls dataset_length].
  rewrite dataset_info_fold. cbn [fst snd]. rewrite union_empty_r_L.
  pose proof (size_list_to_set_le (map url recs)) as L. rewrite length_map in L.
  split; [lia|split].
  - intros H. apply size_list_to_set_nodup. rewrite length_map. lia.
  - intros H. rewrite size_list_to_set by exact H. rewrite length_map. lia.
Qed.

Lemma ignore_loop_keys (seen : gset string) (xs : list sample) :
  (forall y, In y (DatasetBuilder.ignore_loop seen xs) ->
     title_key y ∉ seen /\ title_key y <> "") /\
  NoDup (map title_key (DatasetBuilder.ignore_loop seen xs)) /\
  DatasetBuilder.ignore_loop seen xs `sublist_of` xs.
Proof.
  revert seen. induction xs as [|x xs IH]; intros seen; simpl.
  - split; [intros y []|split; constructor].
  - destruct (negb _ && negb _) eqn:B.
    + apply andb_true_iff in B as [B1 B2]. apply negb_true_iff in B1, B2.
      apply String.eqb_neq in B1. apply bool_decide_eq_false in B2.
      destruct (IH ({[strip (title x)]} ∪ seen)) as (K & N & Sb).
      unfold title_key in *. split; [|split].
      * intros y [<-|Hy]; [split; assumption|].
        destruct (K y Hy) as [K1 K2]. split; [set_solver|exact K2].
      * simpl. constructor; [|exact N]. intros Hin.
        apply list_elem_of_In, in_map_iff in Hin as (y & Ey & Hy).
        destruct (K y Hy) as [K1 _]. apply K1. rewrite Ey. set_solver.
      * apply sublist_skip, Sb.
    + destruct (IH seen) as (K & N & Sb).
      split; [exact K|split; [exact N|apply sublist_cons, Sb]].
Qed.

Lemma ignore_loop_fixed (seen : gset string) (ys : list sample) :
  (forall y, In y ys -> title_key y ∉ seen /\ title_key y <> "") ->
  NoDup (map title_key ys) ->
  DatasetBuilder.ignore_loop seen ys = ys.
Proof.
  revert seen. induction ys as [|y ys IH]; intros seen K N; simpl; [reflexivity|].
  destruct (K y (or_introl eq_refl)) as [K1 K2].
  apply NoDup_cons in N as [Ny N]. unfold title_key in K1, K2.
  rewrite (proj2 (String.eqb_neq _ _) K2), bool_decide_eq_false_2 by exact K1.
  simpl. f_equal. apply IH; [|exact N].
  intros z Hz. destruct (K z (or_intror Hz)) as [Z1 Z2]. split; [|exact Z2].
  rewrite elem_of_union, elem_of_singleton. intros [E|E]; [|exact (Z1 E)].
  apply Ny, list_elem_of_In, in_map_iff. exists z. split; [exact E|exact Hz].
Qed.

(** The samples [_ignore_duplicates] keeps have pairwise distinct
    trimmed titles and appear in the input, in the same order. *)
Theorem ignore_duplicates_distinct_titles (xs : list sample) :
  NoDup (map title_key (DatasetBuilder._ignore_duplicates xs)) /\
  DatasetBuilder._ignore_duplicates xs `sublist_of` xs.
Proof.
  unfold DatasetBuilder._ignore_duplicates.
  destruct (ignore_loop_keys ∅ xs) as (_ & N & Sb). split; assumption.
Qed.

(** Deduplicating a deduplicated list changes nothing. *)
Theorem ignore_duplicates_idempotent (xs : list sample) :
  DatasetBuilder._ignore_duplicates (DatasetBuilder._ignore_duplicates xs) =
  DatasetBuilder._ignore_duplicates xs.
Proof.
  unfold DatasetBuilder._ignore_duplicates at 1.
  destruct (ignore_loop_keys ∅ xs) as (K & N & _).
  apply ignore_loop_fixed; [|exact N].
  intros y Hy. destruct (K y Hy) as [_ K2]. split; [apply not_elem_of_empty|exact K2].
Qed.

(** [build_dataset] fails when the raw file is missing, pushes nothing
    unless asked, and otherwise pushes one private "train" split made of
    the deduplicated records: a subsequence of the file with distinct,
    non-empty trimmed titles. *)
Theorem build_dataset_outcomes :
  (forall push, DatasetBuilder.build_dataset push None = inl DatasetBuilder.FileNotFoundError) /\
  (forall recs, DatasetBuilder.build_dataset false (Some recs) = inr None) /\
  (forall recs, exists train,
     DatasetBuilder.build_dataset true (Some recs) =
     inr (Some (DatasetBuilder.mk_hub_push "alexandrainst/lrytas-summarization" true
                  [("train", train)])) /\
     train `sublist_of` recs /\ NoDup (map title_key train) /\
     Forall (fun x => title_key x <> "") train).
Proof.
  split; [|split].
  - intros []; reflexivity.
  - intros recs. reflexivity.
  - intros recs. exists (DatasetBuilder._ignore_duplicates recs). split; [reflexivity|].
    unfold DatasetBuilder._ignore_duplicates.
    destruct (ignore_loop_keys ∅ recs) as (K & N & Sb).
    split; [exact Sb|split; [exact N|]].
    apply Forall_forall. intros y Hy. exact (proj2 (K y (proj1 (list_elem_of_In _ _) Hy))).
Qed.

(** * Sample runs *)

Lemma append_cancel_l (p a b : string) : p ++ a = p ++ b -> a = b.
Proof. induction p as [|c p IH]; simpl; [auto|]. intros E. injection E as E. apply IH, E. Qed.

Lemma crawl_never_appends_url_twice_witness :
  crawl_inv (init None (query_words 3)) /\
  crawl_inv (snd (scrape one_link no_domain page_ok 2 false (init None (query_words 3)))).
Proof.
  destruct (crawl_never_appends_url_twice one_link no_domain page_ok 2 false) as (_ & H2 & H3).
  assert (N : NoDup (map url (file_records None))) by constructor.
  split; [exact (H2 _ _ N)|exact (proj1 (H3 _ (H2 _ _ N)))].
Defined.

Lemma crawl_stops_at_max_articles_witness :
  let r := scrape one_link no_domain page_ok 3 false (init None (["wX"] ++ ["wA"; "wB"; "wC"])%list) in
  fst r = Ok tt /\ dataset_length (snd r) = 3%nat /\
  length (file_records (dataset_file (snd r))) = 3%nat /\
  words (snd r) = ["wX"] /\ popped (log (snd r)) = ["wA"; "wB"; "wC"].
Proof.
  apply (proj2 (crawl_stops_at_max_articles one_link no_domain page_ok 3 false) eq_refl one_article).
  - intros q. reflexivity.
  - intros q1 q2 E. unfold one_article, base_url in E.
    apply append_cancel_l in E. apply (append_cancel_l "/") in E.
    apply append_cancel_l in E. exact E.
  - intros u. eexists. split; [reflexivity|]. split; discriminate.
  - apply (bool_decide_unpack _). vm_compute. reflexivity.
Defined.

Lemma batch_cooldown_between_queries_witness :
  scrape_loop one_link no_domain page_ok 30 false 1 0 (mk_st 26 ∅ ["wA"] None true []) =
  (query_loop one_link no_domain page_ok false 1 "wA" ;;
   scrape_loop one_link no_domain page_ok 30 false 0 26)
    (mk_st 26 ∅ [] None true [EPop "wA"; ELongSleep 300000%Z 420000%Z]).
Proof.
  apply (proj1 (proj2 (proj2 (batch_cooldown_between_queries one_link no_domain page_ok 30 false)))).
  - apply Nat.ltb_lt. reflexivity.
  - reflexivity.
  - apply Nat.ltb_lt. reflexivity.
Defined.

(** With thirty new articles on one search page no long delay happens at
    all, and with one article per query none happens before the 26th
    fetch either: 26 articles are fetched and appended, no long delay. *)
Lemma batch_cooldown_counterexample :
  (let r := scrape thirty_links no_domain page_ok 30 false (init None ["wA"]) in
   fst r = Ok tt /\ dataset_length (snd r) = 30%nat /\
   forallb (fun e => negb (is_long_sleep e)) (log (snd r)) = true) /\
  (let r := scrape one_link no_domain page_ok 26 false (init None (query_words 26)) in
   fst r = Ok tt /\ dataset_length (snd r) = 26%nat /\
   forallb (fun e => negb (is_long_sleep e)) (log (snd r)) = true).
Proof. split; vm_compute; repeat split. Qed.

Lemma http_error_ends_crawl_witness :
  scrape one_link no_domain page_error 1 false (init None ["wA"]) =
  (Err (HTTPError (one_article "wA")),
   mk_st 0 ∅ [] None true
     [EArticleFetch (one_article "wA"); EShortSleep 30000%Z 60000%Z;
      EShortSleep 30000%Z 60000%Z; ESearchFetch (base_url "wA"); EPop "wA"]).
Proof.
  apply (proj2 (proj2 (http_error_ends_crawl one_link no_domain page_error 1 false))
           (init None ["wA"]) [] "wA" (one_article "wA") [] 503).
  - apply Nat.ltb_lt. reflexivity.
  - reflexivity.
  - reflexivity.
  - apply (bool_decide_unpack _). vm_compute. reflexivity.
  - reflexivity.
Defined.

(** An error status on the first article ends the crawl with [HTTPError]:
    no long delay, no further query, the other words are left. *)
Lemma http_error_counterexample :
  let r := scrape one_link no_domain page_error 5 false (init None (query_words 3)) in
  fst r = Err (HTTPError (one_article "wC")) /\
  forallb (fun e => negb (is_long_sleep e)) (log (snd r)) = true /\
  popped (log (snd r)) = ["wC"] /\ words (snd r) = ["wA"; "wB"].
Proof. vm_compute. repeat split. Qed.

(** The first events of a crawl: the query is popped and the search page
    loaded with no short delay before the load. *)
Lemma short_sleep_counterexample :
  let r := scrape one_link no_domain page_ok 1 false (init None ["wA"]) in
  firstn 3 (rev (log (snd r))) =
  [EPop "wA"; ESearchFetch (base_url "wA"); EShortSleep 30000%Z 60000%Z].
Proof. vm_compute. reflexivity. Qed.

Lemma query_pool_pops_last_witness :
  NoDup (popped (log (snd (scrape one_link no_domain page_ok 2 false (init None (query_words 3)))))) /\
  fst (scrape_loop one_link no_domain page_ok 1 false 1 0 (init None [])) = Err IndexError.
Proof.
  split.
  - apply (proj1 (proj2 (proj2 (proj2 (query_pool_pops_last one_link no_domain page_ok 2 false))))
             (init None (query_words 3))).
    + apply (bool_decide_unpack _). vm_compute. reflexivity.
    + reflexivity.
  - apply (proj1 (proj2 (proj2 (proj2 (proj2 (query_pool_pops_last one_link no_domain page_ok 1 false)))))
             0 0 (init None [])).
    + apply Nat.ltb_lt. reflexivity.
    + reflexivity.
Defined.

Lemma batch_processed_past_max_articles_witness :
  let r := scrape three_links no_domain page_ok 1 false (init None ["wA"]) in
  dataset_length (snd r) = 3%nat /\
  exists q', hd_error (popped (log (snd r))) = Some q' /\
    (1 <= dataset_length (snd r) <
     1 + length (map (normalize_link no_domain) (three_links (base_url q'))))%nat.
Proof.
  cbv zeta. split; [vm_compute; reflexivity|].
  apply (proj2 (batch_processed_past_max_articles three_links no_domain page_ok 1 false)
           (init None ["wA"]) (snd (scrape three_links no_domain page_ok 1 false (init None ["wA"])))).
  - apply Nat.ltb_lt. reflexivity.
  - vm_compute. reflexivity.
Defined.

Lemma untitled_sample_persisted_witness :
  dataset_file (snd (scrape_url page_untitled false "https://www.lrytas.lt/x" (init None ["wA"]))) =
  Some [mk_sample "https://www.lrytas.lt/x" "" "sum" "body"].
Proof.
  apply (proj1 (proj2 (untitled_sample_persisted page_untitled false))
           "https://www.lrytas.lt/x" (init None ["wA"]) (mk_soup "" "body" "sum")).
  - apply (bool_decide_unpack _). vm_compute. reflexivity.
  - reflexivity.
  - reflexivity.
  - discriminate.
  - discriminate.
Defined.

Lemma repeated_link_fetch_count_witness :
  is_ok (fst (_scrape twice_links no_domain page_no_text false "wA" (init None ["wA"]))) = true /\
  exists l,
    log (snd (_scrape twice_links no_domain page_no_text false "wA" (init None ["wA"]))) =
      (l ++ [])%list /\
    count_events (is_fetch_of "https://www.lrytas.lt/x") l = 2%nat.
Proof.
  assert (H : is_ok (fst (_scrape twice_links no_domain page_no_text false "wA"
                            (init None ["wA"]))) = true) by (vm_compute; reflexivity).
  split; [exact H|].
  destruct (repeated_link_fetch_count twice_links no_domain page_no_text false "wA"
              "https://www.lrytas.lt/x" (mk_soup "T" "" "sum") (init None ["wA"])
              eq_refl H) as (l & E & C).
  exists l. split; [exact E|]. rewrite C. vm_compute. reflexivity.
Defined.

Lemma ignore_duplicates_unicode_spaces :
  let a := mk_sample "a" "X" "s" "t" in
  let b := mk_sample "b" (String (ascii_of_nat 194) (String (ascii_of_nat 160) "X")) "s" "t" in
  let c := mk_sample "c"
             (String (ascii_of_nat 226) (String (ascii_of_nat 128) (String (ascii_of_nat 131) "")))
             "s" "t" in
  DatasetBuilder._ignore_duplicates [a; b; c] = [a].
Proof. vm_compute. reflexivity. Qed.

Lemma query_of_seen_links_succeeds_witness :
  query_loop one_link no_domain page_ok false 1 "wA"
    (mk_st 1 {[one_article "wA"]} [] None false []) =
  (Ok tt, mk_st 1 {[one_article "wA"]} [] None true
            [EShortSleep 30000%Z 60000%Z; ESearchFetch (base_url "wA")]).
Proof.
  destruct (query_of_seen_links_succeeds one_link no_domain page_ok false 0 "wA"
              (mk_st 1 {[one_article "wA"]} [] None false [])) as [_ H].
  - vm_compute. discriminate.
  - apply (bool_decide_unpack _). vm_compute. reflexivity.
  - exact H.
Defined.

Lemma scrape_appends_in_page_order_witness :
  fst (_scrape three_links no_domain page_ok false "wA" (init None ["wA"])) = Ok true /\
  exists l, length l = 3%nat /\
    file_records (dataset_file (snd (_scrape three_links no_domain page_ok false "wA"
                                       (init None ["wA"])))) = l.
Proof.
  destruct (scrape_appends_in_page_order three_links no_domain page_ok false "wA"
              (init None ["wA"])) as [E (l & F & E2)].
  - vm_compute. discriminate.
  - apply (bool_decide_unpack _). vm_compute. reflexivity.
  - intros u Hu. split; [apply not_elem_of_empty|].
    eexists. split; [reflexivity|]. split; discriminate.
  - split; [exact E|]. exists l. split.
    + apply Forall2_length in F. rewrite <- F. reflexivity.
    + rewrite E2. reflexivity.
Defined.

Lemma resumed_full_store_does_nothing_witness :
  scrape one_link no_domain page_ok 1 false
    (init (Some [mk_sample "https://www.lrytas.lt/x" "T" "sum" "body"]) ["wA"]) =
  (Ok tt, init (Some [mk_sample "https://www.lrytas.lt/x" "T" "sum" "body"]) ["wA"]).
Proof.
  apply (resumed_full_store_does_nothing one_link no_domain page_ok 1 false).
  apply Nat.leb_le. reflexivity.
Defined.
